(** * The Personas MCP example client (examples/python-client.py)

    A shallow embedding of [PersonasMCPClient], of the six example routines
    and of [main], followed by the properties of the client that the
    specification states.

    What is modelled and how:
    - decoded JSON documents are Python values ([value]); a [dict] is an
      association list in insertion order;
    - Python exceptions are the constructors of [exn]; a computation either
      returns or raises ([result]);
    - the client object and the network are threaded explicitly ([state],
      monad [M]); every call of [Session.get] / [Session.post] appends the
      request to the log [sent] and asks the [server] for the outcome;
    - of the [requests] library only what the script uses is modelled:
      [Session.get], [Session.post], [Response.raise_for_status] and
      [Response.json];
    - a Python [str] is held as the bytes of its UTF-8 encoding, a lone
      surrogate (which the escapes of a JSON document can produce) as the
      three bytes that code point would take;
    - standard output is a UTF-8 stream: what is written to it is not kept,
      but a [print] raises [UnicodeEncodeError] when the text it is given
      holds a lone surrogate ([py_print]).  The script's own literals hold
      none, so only the prints of what the server sent can raise. *)

From Stdlib Require Import ZArith List String Ascii Bool Lia.
From Stdlib Require Import DecimalString SpecFloat Permutation.
Import ListNotations.

Set Warnings "-register-all".

Open Scope string_scope.
Open Scope list_scope.
Open Scope Z_scope.

(** ** Python values *)

(** What [json.loads] can produce.  A JSON number without fraction or exponent
    decodes to [int], any other to [float]. *)
Inductive value : Type :=
| VNone
| VBool (b : bool)
| VInt (n : Z)
| VFloat (x : spec_float)
| VStr (s : string)
| VList (items : list value)
| VDict (entries : list (string * value)).

(** A Python [dict] holds one binding per key; [lookup] reads the first
    binding of the key, so it is total on every association list. *)
Fixpoint lookup (k : string) (d : list (string * value)) : option value :=
  match d with
  | [] => None
  | (k', v) :: d' => if String.eqb k k' then Some v else lookup k d'
  end.

Definition has_key (k : string) (d : list (string * value)) : bool :=
  match lookup k d with Some _ => true | None => false end.

(** [s.startswith(p)] *)
Fixpoint startswith (s p : string) {struct p} : bool :=
  match p with
  | EmptyString => true
  | String a p' =>
      match s with
      | EmptyString => false
      | String b s' => Ascii.eqb a b && startswith s' p'
      end
  end.

(** [needle in haystack] on strings. *)
Fixpoint infixb (needle haystack : string) : bool :=
  startswith haystack needle ||
  match haystack with
  | EmptyString => false
  | String _ rest => infixb needle rest
  end.

(** [v == s] for a string [s]: a string equals only the same string. *)
Definition eq_str (s : string) (v : value) : bool :=
  match v with
  | VStr t => String.eqb s t
  | _ => false
  end.

(** [bool(v)]. *)
Definition truthy (v : value) : bool :=
  match v with
  | VNone => false
  | VBool b => b
  | VInt n => negb (n =? 0)
  | VFloat (S754_zero _) => false
  | VFloat _ => true
  | VStr s => negb (String.eqb s "")
  | VList l => match l with [] => false | _ => true end
  | VDict d => match d with [] => false | _ => true end
  end.

(** [hash(v)] succeeds. *)
Definition hashable (v : value) : bool :=
  match v with
  | VList _ | VDict _ => false
  | _ => true
  end.

Fixpoint chars (s : string) : list value :=
  match s with
  | EmptyString => []
  | String c rest => VStr (String c EmptyString) :: chars rest
  end.

(** ** Exceptions and results *)

(** The classes of [requests.exceptions] that matter; all of them derive from
    [requests.exceptions.RequestException].  [JSONDecodeError] is the one
    [Response.json] raises (requests 2.27 and later). *)
Inductive request_exception : Type :=
| HTTPError
| ConnectionError
| Timeout
| JSONDecodeError
| OtherRequestException.

Inductive exn : Type :=
| Exception (msg : string)
| RequestException (cls : request_exception) (msg : string)
| AttributeError
| TypeError
| KeyError
| IndexError
| ValueError
| RecursionError
| UnicodeEncodeError
| SystemExit (code : Z).

(** [isinstance(e, Exception)]: [SystemExit] derives from [BaseException]
    only. *)
Definition is_Exception (e : exn) : bool :=
  match e with
  | SystemExit _ => false
  | _ => true
  end.

Inductive result (A : Type) : Type :=
| Ok (a : A)
| Raise (e : exn).
Arguments Ok {A} a.
Arguments Raise {A} e.

(** ** Operations on values that can raise *)

(** [needle in v] *)
Definition py_in (needle : string) (v : value) : result bool :=
  match v with
  | VDict d => Ok (has_key needle d)
  | VList l => Ok (existsb (eq_str needle) l)
  | VStr s => Ok (infixb needle s)
  | _ => Raise TypeError
  end.

(** [v[k]] for a string key *)
Definition py_getitem (v : value) (k : string) : result value :=
  match v with
  | VDict d => match lookup k d with Some x => Ok x | None => Raise KeyError end
  | _ => Raise TypeError
  end.

(** [v[0]] *)
Definition py_getitem_0 (v : value) : result value :=
  match v with
  | VList (x :: _) => Ok x
  | VList [] => Raise IndexError
  | VStr (String c _) => Ok (VStr (String c EmptyString))
  | VStr EmptyString => Raise IndexError
  | VDict _ => Raise KeyError
  | _ => Raise TypeError
  end.

(** [v.get(k, default)] *)
Definition py_get (v : value) (k : string) (default : value) : result value :=
  match v with
  | VDict d => Ok (match lookup k d with Some x => x | None => default end)
  | _ => Raise AttributeError
  end.

(** [len(v)] *)
Definition py_len (v : value) : result Z :=
  match v with
  | VList l => Ok (Z.of_nat (List.length l))
  | VDict d => Ok (Z.of_nat (List.length d))
  | VStr s => Ok (Z.of_nat (String.length s))
  | _ => Raise TypeError
  end.

(** The items [for x in v] visits. *)
Definition py_iter (v : value) : result (list value) :=
  match v with
  | VList l => Ok l
  | VDict d => Ok (map (fun kv => VStr (fst kv)) d)
  | VStr s => Ok (chars s)
  | _ => Raise TypeError
  end.

(** ** Printing *)

(** The byte 0xED opens the encoding of U+D000..U+DFFF. *)
Definition opens_surrogate (c : ascii) : bool :=
  (nat_of_ascii c =? 237)%nat.

(** After 0xED, a byte 0xA0..0xBF makes it a surrogate, U+D800..U+DFFF. *)
Definition continues_surrogate (c : ascii) : bool :=
  ((160 <=? nat_of_ascii c) && (nat_of_ascii c <=? 191))%nat.

(** The text holds no lone surrogate: UTF-8 can encode it. *)
Fixpoint encodable (s : string) : bool :=
  match s with
  | EmptyString => true
  | String c rest =>
      negb (opens_surrogate c &&
            match rest with
            | String d _ => continues_surrogate d
            | EmptyString => false
            end)
      && encodable rest
  end.

(** [print(f"...")], [interpolated] being the texts the f-string puts
    between its literal parts: the text printed holds a lone surrogate
    exactly when one of them does. *)
Definition py_print (interpolated : list string) : result unit :=
  if forallb encodable interpolated then Ok tt else Raise UnicodeEncodeError.

(** ** The HTTP exchange *)

Inductive http_method : Type := GET | POST.

(** What [Session.get(url)] and [Session.post(url, json=..., headers=...)]
    are asked to send. *)
Record request : Type := mkRequest {
  rq_method : http_method;
  rq_url : string;
  rq_json : option value;
  rq_headers : list (string * string)
}.

(** Why [Response.json] cannot decode a body: it is not JSON ([msg] is the
    text of the error), it is JSON with an integer of more digits than the
    interpreter converts, or it is JSON nested deeper than the interpreter
    recurses. *)
Inductive decode_error : Type :=
| NotJSON (msg : string)
| TooManyDigits
| TooDeep.

(** A [requests.Response]: [body] is what [Response.json] yields, the
    decoded document or the reason why there is none. *)
Record response : Type := mkResponse {
  status_code : Z;
  reason : string;
  url : string;
  body : decode_error + value
}.

(** [Session.get] / [Session.post] either return a response or raise a
    [RequestException] of some class, whose [str] is [msg]. *)
Inductive outcome : Type :=
| Replied (r : response)
| Failed (cls : request_exception) (msg : string).

(** The network: [server] answers a request given everything sent so far
    (the request itself is the last entry); [sent] is the log. *)
Record world : Type := mkWorld {
  server : list request -> outcome;
  sent : list request
}.

(** The [requests.Session] object; its cookie jar and connection pool are on
    the [server] side of the model. *)
Record Session : Type := mkSession { session_ident : nat }.

(** The attributes of a [PersonasMCPClient]. *)
Record client : Type := mkClient {
  mcp_url : string;
  api_url : string;
  session : Session;
  request_id : Z
}.

Record state : Type := mkState {
  self : client;
  net : world
}.

(** ** Computations *)

Definition M (A : Type) : Type := state -> result A * state.

Definition ret {A} (a : A) : M A := fun st => (Ok a, st).

Definition raise {A} (e : exn) : M A := fun st => (Raise e, st).

Definition bind {A B} (m : M A) (k : A -> M B) : M B :=
  fun st =>
    match m st with
    | (Ok a, st') => k a st'
    | (Raise e, st') => (Raise e, st')
    end.

Definition lift {A} (r : result A) : M A := fun st => (r, st).

Notation "x <- m ;; k" := (bind m (fun x => k))
  (at level 61, m at next level, right associativity).
Notation "m ;;; k" := (bind m (fun _ => k))
  (at level 61, right associativity).

(** [try: body / except cls as e: handler], [catches] being
    [isinstance(e, cls)]. *)
Definition try_except {A} (body : M A) (catches : exn -> bool)
    (handler : exn -> M A) : M A :=
  fun st =>
    match body st with
    | (Raise e, st') => if catches e then handler e st' else (Raise e, st')
    | r => r
    end.

Definition is_RequestException (e : exn) : bool :=
  match e with
  | RequestException _ _ => true
  | _ => false
  end.

(** [str(e)].  The text of the built-in errors the script can meet is made
    by the interpreter from type names and [repr]s, which escape what is not
    printable; it is plain ASCII and is not spelled out, the empty text
    standing for it. *)
Definition exn_str (e : exn) : string :=
  match e with
  | Exception msg => msg
  | RequestException _ msg => msg
  | _ => ""
  end.

(** ** The part of [requests] the script uses *)

Definition exchange (rq : request) : M response :=
  fun st =>
    let w := net st in
    let log := sent w ++ [rq] in
    let st' := mkState (self st) (mkWorld (server w) log) in
    match server w log with
    | Replied r => (Ok r, st')
    | Failed cls msg => (Raise (RequestException cls msg), st')
    end.

Definition session_get (s : Session) (u : string) : M response :=
  exchange (mkRequest GET u None []).

Definition session_post (s : Session) (u : string) (json : value)
    (headers : list (string * string)) : M response :=
  exchange (mkRequest POST u (Some json) headers).

Definition string_of_Z (n : Z) : string :=
  NilZero.string_of_int (Z.to_int n).

(** [Response.raise_for_status]: raises [HTTPError] for 400..599 and for no
    other status. *)
Definition raise_for_status (r : response) : result unit :=
  let code := status_code r in
  if (400 <=? code) && (code <? 500) then
    Raise (RequestException HTTPError
             (string_of_Z code ++ " Client Error: " ++ reason r
                ++ " for url: " ++ url r)%string)
  else if (500 <=? code) && (code <? 600) then
    Raise (RequestException HTTPError
             (string_of_Z code ++ " Server Error: " ++ reason r
                ++ " for url: " ++ url r)%string)
  else Ok tt.

(** [Response.json]: of what the decoder raises, [requests] turns the
    [json.JSONDecodeError] into its own [JSONDecodeError] and lets the rest
    through, the plain [ValueError] of the digit limit and the
    [RecursionError]. *)
Definition response_json (r : response) : result value :=
  match body r with
  | inr v => Ok v
  | inl (NotJSON msg) => Raise (RequestException JSONDecodeError msg)
  | inl TooManyDigits => Raise ValueError
  | inl TooDeep => Raise RecursionError
  end.

(** ** Dictionary keys

    [by_role] in [example_4_use_rest_api] is keyed by decoded values; two
    keys are the same key when they are equal in Python's sense: numbers
    (with [True] as 1 and [False] as 0) by exact value, strings by content.
    [json] decodes every [NaN] to one object, which a [dict] finds again by
    identity. *)

Definition float_eq_Z (x : spec_float) (n : Z) : bool :=
  match x with
  | S754_zero _ => n =? 0
  | S754_finite s m e =>
      let signed := if s then - Z.pos m else Z.pos m in
      if 0 <=? e then n =? signed * 2 ^ e
      else n * 2 ^ (- e) =? signed
  | _ => false
  end.

Definition Z_of_bool (b : bool) : Z := if b then 1 else 0.

Definition key_eqb (a b : value) : bool :=
  match a, b with
  | VNone, VNone => true
  | VStr s, VStr t => String.eqb s t
  | VBool x, VBool y => Bool.eqb x y
  | VBool x, VInt n | VInt n, VBool x => Z_of_bool x =? n
  | VInt m, VInt n => m =? n
  | VBool x, VFloat f | VFloat f, VBool x => float_eq_Z f (Z_of_bool x)
  | VInt n, VFloat f | VFloat f, VInt n => float_eq_Z f n
  | VFloat S754_nan, VFloat S754_nan => true
  | VFloat f, VFloat g => SFeqb f g
  | _, _ => false
  end.

(** [if role not in by_role: by_role[role] = []] followed by
    [by_role[role].append(persona)] *)
Fixpoint add_to_group (role persona : value)
    (by_role : list (value * list value)) : list (value * list value) :=
  match by_role with
  | [] => [(role, [persona])]
  | (r, ps) :: rest =>
      if key_eqb r role then (r, ps ++ [persona]) :: rest
      else (r, ps) :: add_to_group role persona rest
  end.

(** The first loop of [example_4_use_rest_api]. *)
Fixpoint group_by_role (personas : list value)
    (by_role : list (value * list value))
    : result (list (value * list value)) :=
  match personas with
  | [] => Ok by_role
  | persona :: rest =>
      match py_get persona "role" (VStr "unknown") with
      | Raise e => Raise e
      | Ok role =>
          if hashable role
          then group_by_role rest (add_to_group role persona by_role)
          else Raise TypeError
      end
  end.

(** ** The client *)

Section Client.

(** Python's [str] on decoded values, which an f-string applies to what it
    interpolates.  It is the runtime's; the script relies on one fact about
    it, that a string is interpolated as it is. *)
Variable py_str : value -> string.
Hypothesis py_str_VStr : forall s, py_str (VStr s) = s.

Definition default_mcp_url : string := "http://localhost:3000/mcp".
Definition default_api_url : string := "http://localhost:3000/api".

(** [PersonasMCPClient.__init__]; [s] is the fresh [requests.Session()]. *)
Definition __init__ (mcp api : string) (s : Session) : client :=
  mkClient mcp api s 0.

Definition get_self : M client := fun st => (Ok (self st), st).

Definition _get_request_id : M Z :=
  fun st =>
    let c := self st in
    let c' := mkClient (mcp_url c) (api_url c) (session c) (request_id c + 1) in
    (Ok (request_id c'), mkState c' (net st)).

Definition envelope (tool_name : string) (arguments : value) (rid : Z) : value :=
  VDict [ ("jsonrpc", VStr "2.0");
          ("method", VStr "tools/call");
          ("params", VDict [ ("name", VStr tool_name);
                             ("arguments", arguments) ]);
          ("id", VInt rid) ].

Definition json_headers : list (string * string) :=
  [ ("Content-Type", "application/json") ].

Definition call_tool (tool_name : string) (arguments : value) : M value :=
  rid <- _get_request_id ;;
  let request := envelope tool_name arguments rid in
  try_except
    (c <- get_self ;;
     response <- session_post (session c) (mcp_url c) request json_headers ;;
     lift (raise_for_status response) ;;;
     result <- lift (response_json response) ;;
     has_error <- lift (py_in "error" result) ;;
     if has_error : bool then
       err <- lift (py_getitem result "error") ;;
       message <- lift (py_get err "message" (VStr "Unknown error")) ;;
       raise (Exception ("MCP Error: " ++ py_str message)%string)
     else
       lift (py_get result "result" (VDict [])))
    is_RequestException
    (fun e => raise (Exception ("Request failed: " ++ exn_str e)%string)).

Definition get_personas : M value :=
  c <- get_self ;;
  response <- session_get (session c) (api_url c ++ "/personas")%string ;;
  lift (raise_for_status response) ;;;
  lift (response_json response).

Definition get_persona (persona_id : string) : M value :=
  c <- get_self ;;
  response <- session_get (session c)
                (api_url c ++ "/personas/" ++ persona_id)%string ;;
  lift (raise_for_status response) ;;;
  lift (response_json response).

(** ** The example routines

    Each routine wraps its body in [try: ... except Exception as e:
    print(f"Error: {e}")].  What a routine does after its last request reads
    the answer and prints; what that can raise ([KeyError], [TypeError],
    [AttributeError], [IndexError], [ValueError], [UnicodeEncodeError]) is
    caught by the handler, has a plain ASCII text, which the handler prints,
    and the routine returns as it does when nothing is raised: that part is
    left out.  What comes before a later request is kept, prints
    included. *)

Definition swallow (body : M unit) : M unit :=
  try_except body is_Exception (fun e => lift (py_print [exn_str e])).

(** [role.title()] exists on strings only.  Title-casing changes the case
    of letters and nothing else: its text holds a lone surrogate exactly
    when the role does, and the role's text stands for it. *)
Definition py_title (role : value) : result string :=
  match role with
  | VStr s => Ok s
  | _ => Raise AttributeError
  end.

(** [print(f"    - {p['id']}: {p['name']}")] for each [p] *)
Fixpoint print_members (ps : list value) : result unit :=
  match ps with
  | [] => Ok tt
  | p :: rest =>
      match py_getitem p "id" with
      | Raise e => Raise e
      | Ok id =>
          match py_getitem p "name" with
          | Raise e => Raise e
          | Ok name =>
              match py_print [py_str id; py_str name] with
              | Raise e => Raise e
              | Ok _ => print_members rest
              end
          end
      end
  end.

(** The second loop of [example_4_use_rest_api]. *)
Fixpoint print_groups (by_role : list (value * list value)) : result unit :=
  match by_role with
  | [] => Ok tt
  | (role, role_personas) :: rest =>
      match py_title role with
      | Raise e => Raise e
      | Ok title =>
          match py_print [title] with
          | Raise e => Raise e
          | Ok _ =>
              match print_members role_personas with
              | Raise e => Raise e
              | Ok _ => print_groups rest
              end
          end
      end
  end.

Definition strs (l : list string) : value := VList (map VStr l).

Definition example_1_get_recommendations : M unit :=
  let task := VDict
    [ ("title", VStr "Implement real-time chat system");
      ("description", VStr ("Build a scalable real-time chat system with WebSocket support, "
                            ++ "message persistence, and user presence indicators"));
      ("keywords", strs ["websocket"; "real-time"; "chat"; "scalability"]);
      ("complexity", VStr "complex");
      ("domain", VStr "backend") ] in
  swallow
    (result <- call_tool "recommend-persona" task ;;
     ret tt).

Definition example_2_explain_persona_fit : M unit :=
  let request := VDict
    [ ("personaId", VStr "architect");
      ("title", VStr "Microservices migration");
      ("description", VStr "Migrate monolithic application to microservices architecture");
      ("keywords", strs ["microservices"; "migration"; "architecture"; "refactoring"]);
      ("complexity", VStr "expert");
      ("domain", VStr "backend") ] in
  swallow
    (result <- call_tool "explain-persona-fit" request ;;
     ret tt).

Definition example_3_compare_personas : M unit :=
  let comparison := VDict
    [ ("personaIds", strs ["developer"; "optimizer"; "performance-analyst"]);
      ("title", VStr "Optimize API response times");
      ("description", VStr ("Our REST API has slow response times. Need to identify "
                            ++ "bottlenecks and implement optimizations"));
      ("keywords", strs ["performance"; "optimization"; "api"; "latency"]);
      ("complexity", VStr "complex") ] in
  swallow
    (result <- call_tool "compare-personas" comparison ;;
     ret tt).

Definition example_4_use_rest_api : M unit :=
  swallow
    (personas <- get_personas ;;
     _ <- lift (py_len personas) ;;
     items <- lift (py_iter personas) ;;
     by_role <- lift (group_by_role items []) ;;
     lift (print_groups by_role) ;;;
     security <- get_persona "security-analyst" ;;
     ret tt).

Definition example_5_system_stats : M unit :=
  swallow
    (result <- call_tool "get-recommendation-stats" (VDict []) ;;
     ret tt).

Definition example_6_practical_workflow : M unit :=
  let problem :=
    [ ("title", VStr "Database performance issues");
      ("description", VStr ("Production database experiencing slow queries, high CPU usage, "
                            ++ "and occasional timeouts during peak hours"));
      ("keywords", strs ["database"; "performance"; "sql"; "optimization"; "production"]);
      ("complexity", VStr "complex");
      ("urgency", VStr "high") ] in
  swallow
    (result <- call_tool "recommend-persona" (VDict problem) ;;
     data <- lift (py_getitem result "data") ;;
     recommendations <- lift (py_getitem data "recommendations") ;;
     if negb (truthy recommendations) then ret tt
     else
       best_persona <- lift (py_getitem_0 recommendations) ;;
       best_id <- lift (py_getitem best_persona "personaId") ;;
       best_score <- lift (py_getitem best_persona "score") ;;
       lift (py_print [py_str best_id; py_str best_score]) ;;;
       best_id <- lift (py_getitem best_persona "personaId") ;;
       lift (py_print [py_str best_id]) ;;;
       persona_id <- lift (py_getitem best_persona "personaId") ;;
       explain_result <- call_tool "explain-persona-fit"
                           (VDict (("personaId", persona_id) :: problem)) ;;
       explanation <- lift (py_getitem explain_result "data") ;;
       reasoning <- lift (py_getitem explanation "reasoning") ;;
       lift (py_print [py_str reasoning]) ;;;
       let alternative_personas := strs ["optimizer"; "database-admin"; "debugger"] in
       compare_result <- call_tool "compare-personas"
                           (VDict (("personaIds", alternative_personas) :: problem)) ;;
       ret tt).

(** ** [main] *)

Definition health_url : string := "http://localhost:3000/health".

Definition run_examples : M unit :=
  example_1_get_recommendations ;;;
  example_2_explain_persona_fit ;;;
  example_3_compare_personas ;;;
  example_4_use_rest_api ;;;
  example_5_system_stats ;;;
  example_6_practical_workflow.

(** The first [try] block of [main]: the liveness check.  [sys.exit(1)]
    raises [SystemExit(1)]. *)
Definition test_connection : M unit :=
  try_except
    (c <- get_self ;;
     response <- session_get (session c) health_url ;;
     lift (raise_for_status response))
    is_RequestException
    (fun _ => raise (SystemExit 1)).

(** The body of [main] once [client = PersonasMCPClient()] exists; the
    handler is [print(f"... Error running examples: {e}")]. *)
Definition main_body : M unit :=
  test_connection ;;;
  try_except run_examples is_Exception
    (fun e => lift (py_print [exn_str e])).

Definition main (s : Session) (w : world) : result unit * state :=
  main_body (mkState (__init__ default_mcp_url default_api_url s) w).

(** The status the process exits with. *)
Definition exit_status (r : result unit) : Z :=
  match r with
  | Ok _ => 0
  | Raise (SystemExit code) => code
  | Raise _ => 1
  end.

End Client.

(** ** Vocabulary of the specification *)

(** The two failure kinds the specification names.  The script has no class
    of either name: [call_tool] raises the built-in [Exception] with the text
    [Request failed: ...] or [MCP Error: ...], and the two REST operations let
    the [RequestException] of [requests] through.  [kind_of] is what a caller
    holding the exception can read off it. *)
Inductive failure_kind : Type := TransportError | RemoteError.

Definition kind_of (e : exn) : option failure_kind :=
  match e with
  | Exception msg =>
      if startswith msg "MCP Error: " then Some RemoteError
      else if startswith msg "Request failed: " then Some TransportError
      else None
  | RequestException _ _ => Some TransportError
  | _ => None
  end.

(** 2xx *)
Definition is_success_status (code : Z) : bool :=
  (200 <=? code) && (code <? 300).

(** 4xx and 5xx, the statuses [raise_for_status] rejects. *)
Definition is_error_status (code : Z) : bool :=
  (400 <=? code) && (code <? 600).

(** What the server answers if [rq] is the next request. *)
Definition reply_to (st : state) (rq : request) : outcome :=
  server (net st) (sent (net st) ++ [rq]).

(** The request [call_tool] hands to [Session.post] when the client is
    [c]. *)
Definition tool_request (c : client) (tool_name : string) (arguments : value)
    : request :=
  mkRequest POST (mcp_url c)
    (Some (envelope tool_name arguments (request_id c + 1)))
    json_headers.

Definition personas_request (c : client) : request :=
  mkRequest GET (api_url c ++ "/personas")%string None [].

Definition persona_request (c : client) (persona_id : string) : request :=
  mkRequest GET (api_url c ++ "/personas/" ++ persona_id)%string None [].

Definition health_request : request := mkRequest GET health_url None [].






(** The liveness check of [main] fails: no response, or a rejected status. *)
Definition health_check_fails (o : outcome) : bool :=
  match o with
  | Failed _ _ => true
  | Replied r => is_error_status (status_code r)
  end.

(** The client after one more request identifier has been drawn. *)
Definition bumped (c : client) : client :=
  mkClient (mcp_url c) (api_url c) (session c) (request_id c + 1).

(** The network after [rq] has been handed to the session. *)
Definition logged (w : world) (rq : request) : world :=
  mkWorld (server w) (sent w ++ [rq]).

(** A computation only adds to the log of requests. *)
Definition appends {A} (m : M A) : Prop :=
  forall st, exists more,
    sent (net (snd (m st))) = sent (net st) ++ more.

(** ** Sequences of operations on one client *)

Inductive operation : Type :=
| CallTool (tool_name : string) (arguments : value)
| GetPersonas
| GetPersona (persona_id : string).

(** The request an operation sends when the client is [c]. *)
Definition request_of (c : client) (o : operation) : request :=
  match o with
  | CallTool tool_name arguments => tool_request c tool_name arguments
  | GetPersonas => personas_request c
  | GetPersona persona_id => persona_request c persona_id
  end.

Definition is_tool_call (o : operation) : bool :=
  match o with CallTool _ _ => true | _ => false end.

Definition is_post (rq : request) : bool :=
  match rq_method rq with POST => true | GET => false end.

(** The ["id"] entry of the JSON body of a request. *)
Definition envelope_id (rq : request) : option value :=
  match rq_json rq with
  | Some (VDict d) => lookup "id" d
  | _ => None
  end.

Fixpoint count_up (from : Z) (n : nat) : list Z :=
  match n with
  | O => []
  | S k => from :: count_up (from + 1) k
  end.

(** The client after an operation: only [call_tool] draws an identifier. *)
Definition client_after (c : client) (o : operation) : client :=
  if is_tool_call o then bumped c else c.

(** The requests a sequence of operations sends, in order, when the client
    starts as [c]. *)
Fixpoint requests_of (c : client) (ops : list operation) : list request :=
  match ops with
  | [] => []
  | o :: rest => request_of c o :: requests_of (client_after c o) rest
  end.

(** What was sent between two states. *)
Definition sent_since (before after : state) : list request :=
  skipn (List.length (sent (net before))) (sent (net after)).

Section Runs.

Variable py_str : value -> string.

Definition perform (o : operation) : M value :=
  match o with
  | CallTool tool_name arguments => call_tool py_str tool_name arguments
  | GetPersonas => get_personas
  | GetPersona persona_id => get_persona persona_id
  end.

(** The caller performs the operations one after the other, catching what
    each raises. *)
Fixpoint perform_all (ops : list operation) (st : state)
    : list (result value) * state :=
  match ops with
  | [] => ([], st)
  | o :: rest =>
      let (r, st') := perform o st in
      let (rs, st'') := perform_all rest st' in
      (r :: rs, st'')
  end.

End Runs.

(** ** A runtime and some servers to run the model on *)

(** An instance of [str]: exact on [None], booleans, integers and strings;
    floats and containers, whose text is the interpreter's [repr], are shown
    by their type. *)
Definition py_str_plain (v : value) : string :=
  match v with
  | VNone => "None"
  | VBool true => "True"
  | VBool false => "False"
  | VInt n => string_of_Z n
  | VFloat _ => "<float>"
  | VStr s => s
  | VList _ => "<list>"
  | VDict _ => "<dict>"
  end.

(** A server that gives the same answer to everything. *)
Definition always (o : outcome) : list request -> outcome := fun _ => o.

Definition ok_json (v : value) : outcome :=
  Replied (mkResponse 200 "OK" "http://localhost:3000/" (inr v)).

Definition fresh (srv : list request -> outcome) : state :=
  mkState (__init__ default_mcp_url default_api_url (mkSession 0))
          (mkWorld srv []).

Definition two_personas : value :=
  VList
    [ VDict [ ("id", VStr "architect"); ("name", VStr "Architect");
              ("role", VStr "architect");
              ("description", VStr "Designs systems") ];
      VDict [ ("id", VStr "developer"); ("name", VStr "Developer");
              ("role", VStr "developer");
              ("description", VStr "Writes code");
              ("expertise", VList [VStr "python"; VStr "testing"]) ] ].

(** A body with an application-level error, as the data model has it. *)
Definition boom : value :=
  VDict [ ("error", VDict [ ("code", VInt (-32601)); ("message", VStr "boom") ]) ].

(** A body whose ["error"] entry is a string, not a mapping. *)
Definition boom_as_text : value := VDict [ ("error", VStr "boom") ].

Definition internal_server_error : outcome :=
  Replied (mkResponse 500 "Internal Server Error" "http://localhost:3000/"
             (inl (NotJSON "Expecting value: line 1 column 1 (char 0)"))).

(** A 300 whose body lists no choices. *)
Definition multiple_choices : outcome :=
  Replied (mkResponse 300 "Multiple Choices" "http://localhost:3000/"
             (inr (VList []))).

(** A 200 whose body holds an integer of more digits than the interpreter
    converts. *)
Definition too_many_digits : outcome :=
  Replied (mkResponse 200 "OK" "http://localhost:3000/" (inl TooManyDigits)).

(** The text of one lone surrogate, U+D800, and a body whose error message
    is that text. *)
Definition lone_surrogate : string :=
  String "237" (String "160" (String "128" EmptyString)).

Definition boom_unprintable : value :=
  VDict [ ("error", VDict [ ("message", VStr lone_surrogate) ]) ].

(** Answers the health check with an empty mapping and everything else with
    the unprintable error. *)
Definition healthy_then_unprintable (log : list request) : outcome :=
  match log with
  | [_] => ok_json (VDict [])
  | _ => ok_json boom_unprintable
  end.

Definition connection_refused : outcome :=
  Failed ConnectionError "Connection refused".

(** Answers the health check with 304 and everything else with an empty
    mapping. *)
Definition not_modified_then_ok (log : list request) : outcome :=
  match log with
  | [_] => Replied (mkResponse 304 "Not Modified" health_url
                    (inl (NotJSON "Expecting value")))
  | _ => ok_json (VDict [])
  end.

(** ** Vocabulary for the example routines *)

Definition is_str (v : value) : bool :=
  match v with
  | VStr _ => true
  | _ => false
  end.

(** The key [example_4_use_rest_api] files a mapping under:
    [persona.get('role', 'unknown')]. *)
Definition role_of (d : list (string * value)) : value :=
  match lookup "role" d with
  | Some role => role
  | None => VStr "unknown"
  end.

(** A key the second loop of [example_4_use_rest_api] can print the header
    of: a string without lone surrogate. *)
Definition printable_role (role : value) : bool :=
  match role with
  | VStr s => encodable s
  | _ => false
  end.

Section Listing.

Variable py_str : value -> string.

(** A persona the second loop can print: a mapping with ["id"] and
    ["name"], the texts of which hold no lone surrogate. *)
Definition printable (persona : value) : bool :=
  match persona with
  | VDict d =>
      match lookup "id" d, lookup "name" d with
      | Some id, Some name => encodable (py_str id) && encodable (py_str name)
      | _, _ => false
      end
  | _ => false
  end.

(** Every key of [by_role] and every member can be printed. *)
Definition groups_ok (by_role : list (value * list value)) : bool :=
  forallb (fun g => printable_role (fst g) && forallb printable (snd g))
          by_role.

(** A persona both loops of [example_4_use_rest_api] get through: a
    printable mapping whose role is a printable string. *)
Definition listable (persona : value) : bool :=
  match persona with
  | VDict d => printable_role (role_of d) && printable persona
  | _ => false
  end.

Definition listing_ok (personas : value) : bool :=
  match py_iter personas with
  | Ok items => forallb listable items
  | Raise _ => false
  end.

(** What [example_6_practical_workflow] reads off the answer to its first
    call before it makes the second: [best_persona['personaId']], where
    [best_persona] is [result["data"]["recommendations"][0]], provided the
    recommendations are not falsy, [best_persona['score']] exists too and
    the two can be printed. *)
Definition top_persona_id (result : value) : option value :=
  match py_getitem result "data" with
  | Ok data =>
      match py_getitem data "recommendations" with
      | Ok recommendations =>
          if truthy recommendations then
            match py_getitem_0 recommendations with
            | Ok best_persona =>
                match py_getitem best_persona "personaId",
                      py_getitem best_persona "score" with
                | Ok persona_id, Ok score =>
                    if encodable (py_str persona_id)
                       && encodable (py_str score)
                    then Some persona_id else None
                | _, _ => None
                end
            | Raise _ => None
            end
          else None
      | Raise _ => None
      end
  | Raise _ => None
  end.

End Listing.

(** Everyone filed in [by_role], group after group. *)
Definition members (by_role : list (value * list value)) : list value :=
  List.concat (map snd by_role).

(** The personas filed under the string [role]. *)
Fixpoint group_of (role : string) (by_role : list (value * list value))
    : list value :=
  match by_role with
  | [] => []
  | (r, ps) :: rest =>
      if eq_str role r then ps else group_of role rest
  end.

(** A mapping whose role is the string [role]. *)
Definition has_role (role : string) (persona : value) : bool :=
  match persona with
  | VDict d => eq_str role (role_of d)
  | _ => false
  end.

(** No two groups of [by_role] have the same key. *)
Fixpoint distinct_keys (by_role : list (value * list value)) : Prop :=
  match by_role with
  | [] => True
  | (r, _) :: rest =>
      (forall r' ps, In (r', ps) rest -> key_eqb r r' = false) /\
      distinct_keys rest
  end.

(** The tool an envelope names. *)
Definition envelope_tool (rq : request) : option value :=
  match rq_json rq with
  | Some (VDict d) =>
      match lookup "params" d with
      | Some (VDict params) => lookup "name" params
      | _ => None
      end
  | _ => None
  end.

(** The arguments an envelope carries. *)
Definition envelope_arguments (rq : request) : option value :=
  match rq_json rq with
  | Some (VDict d) =>
      match lookup "params" d with
      | Some (VDict params) => lookup "arguments" params
      | _ => None
      end
  | _ => None
  end.

(** What the log shows of a request: method, URL, tool and identifier. *)
Definition summary (rq : request)
    : http_method * string * option value * option value :=
  (rq_method rq, rq_url rq, envelope_tool rq, envelope_id rq).

(** The [problem] of [example_6_practical_workflow]. *)
Definition workflow_problem : list (string * value) :=
  [ ("title", VStr "Database performance issues");
    ("description", VStr ("Production database experiencing slow queries, high CPU usage, "
                          ++ "and occasional timeouts during peak hours"));
    ("keywords", strs ["database"; "performance"; "sql"; "optimization"; "production"]);
    ("complexity", VStr "complex");
    ("urgency", VStr "high") ].

(** The operations one run of the six examples performs. *)
Definition a_run_of_the_examples (ops : list operation) : Prop :=
  exists task request comparison fetch more,
    ops = [ CallTool "recommend-persona" task;
            CallTool "explain-persona-fit" request;
            CallTool "compare-personas" comparison;
            GetPersonas ]
          ++ fetch
          ++ [ CallTool "get-recommendation-stats" (VDict []);
               CallTool "recommend-persona" (VDict workflow_problem) ]
          ++ more /\
    (fetch = [] \/ fetch = [GetPersona "security-analyst"]) /\
    (more = [] \/
     (exists a, more = [CallTool "explain-persona-fit" a]) \/
     (exists a b, more = [CallTool "explain-persona-fit" a;
                          CallTool "compare-personas" b])).

(** The operations of a run of the examples that a handler which could not
    print has cut short, or of a whole run: the first call at least. *)
Definition a_run_cut_short (ops : list operation) : Prop :=
  ops <> [] /\ exists rest, a_run_of_the_examples (ops ++ rest).


(** One of the built-in errors, whose text is plain ASCII. *)
Definition builtin_error (e : exn) : bool :=
  match e with
  | Exception _ | RequestException _ _ | SystemExit _ => false
  | _ => true
  end.

(** What [except Exception as e: print(f"... {e}")] makes of what the
    body did. *)
Definition handled {A} (r : result A) : result unit :=
  match r with
  | Ok _ => Ok tt
  | Raise e => py_print [exn_str e]
  end.

(** A computation raises nothing but what [except Exception] catches. *)
Definition catchable {A} (m : M A) : Prop :=
  forall st e, fst (m st) = Raise e -> is_Exception e = true.

(** * Properties *)

(** ** Status codes *)

Lemma success_is_not_error (code : Z) :
  is_success_status code = true -> is_error_status code = false.
Proof. unfold is_success_status, is_error_status. lia. Qed.

Lemma raise_for_status_accepts (r : response) :
  is_error_status (status_code r) = false -> raise_for_status r = Ok tt.
Proof.
  unfold is_error_status, raise_for_status. intros H.
  destruct ((400 <=? status_code r) && (status_code r <? 500)) eqn:E4;
    [ lia | ].
  destruct ((500 <=? status_code r) && (status_code r <? 600)) eqn:E5;
    [ lia | reflexivity ].
Qed.

Lemma raise_for_status_rejects (r : response) :
  is_error_status (status_code r) = true ->
  exists msg, raise_for_status r = Raise (RequestException HTTPError msg).
Proof.
  unfold is_error_status, raise_for_status. intros H.
  destruct ((400 <=? status_code r) && (status_code r <? 500)) eqn:E4;
    [ eexists; reflexivity | ].
  destruct ((500 <=? status_code r) && (status_code r <? 600)) eqn:E5;
    [ eexists; reflexivity | lia ].
Qed.

(** ** What one operation does to the state *)

Section Properties.

Variable py_str : value -> string.
Hypothesis py_str_VStr : forall s, py_str (VStr s) = s.

Ltac unfold_monad :=
  unfold bind, try_except, session_post, session_get, exchange, get_self,
    _get_request_id, lift, raise, ret.

(** Case analysis on a scrutinee that has no case analysis inside. *)
Ltac case_innermost :=
  match goal with
  | |- context [match ?x with _ => _ end] =>
      lazymatch x with
      | context [match _ with _ => _ end] => fail
      | _ => destruct x eqn:?; cbn
      end
  | |- context [if ?x then _ else _] =>
      lazymatch x with
      | context [match _ with _ => _ end] => fail
      | _ => destruct x eqn:?; cbn
      end
  end.

Ltac case_matches := repeat case_innermost.

Lemma call_tool_state (st : state) (tool_name : string) (arguments : value) :
  snd (call_tool py_str tool_name arguments st)
  = mkState (bumped (self st))
            (logged (net st) (tool_request (self st) tool_name arguments)).
Proof.
  unfold call_tool. unfold_monad. cbn.
  unfold logged, bumped, tool_request.
  case_matches; reflexivity.
Qed.

Lemma get_personas_state (st : state) :
  snd (get_personas st)
  = mkState (self st) (logged (net st) (personas_request (self st))).
Proof.
  unfold get_personas. unfold_monad. cbn.
  unfold logged, personas_request.
  case_matches; reflexivity.
Qed.

Lemma get_persona_state (st : state) (persona_id : string) :
  snd (get_persona persona_id st)
  = mkState (self st) (logged (net st) (persona_request (self st) persona_id)).
Proof.
  unfold get_persona. unfold_monad. cbn.
  unfold logged, persona_request.
  case_matches; reflexivity.
Qed.

(** ** What one operation returns *)

Lemma call_tool_failed (st : state) (tool_name : string) (arguments : value)
    (cls : request_exception) (msg : string) :
  reply_to st (tool_request (self st) tool_name arguments) = Failed cls msg ->
  fst (call_tool py_str tool_name arguments st)
  = Raise (Exception ("Request failed: " ++ msg)%string).
Proof.
  unfold reply_to, tool_request. intros H.
  unfold call_tool. unfold_monad. cbn. rewrite H. reflexivity.
Qed.

Lemma call_tool_rejected (st : state) (tool_name : string) (arguments : value)
    (r : response) :
  reply_to st (tool_request (self st) tool_name arguments) = Replied r ->
  is_error_status (status_code r) = true ->
  exists msg,
    fst (call_tool py_str tool_name arguments st)
    = Raise (Exception ("Request failed: " ++ msg)%string).
Proof.
  unfold reply_to, tool_request. intros H Hs.
  destruct (raise_for_status_rejects r Hs) as [msg Hm].
  exists msg.
  unfold call_tool. unfold_monad. cbn. rewrite H, Hm. reflexivity.
Qed.

Lemma call_tool_undecodable (st : state) (tool_name : string)
    (arguments : value) (r : response) (msg : string) :
  reply_to st (tool_request (self st) tool_name arguments) = Replied r ->
  is_error_status (status_code r) = false ->
  body r = inl (NotJSON msg) ->
  fst (call_tool py_str tool_name arguments st)
  = Raise (Exception ("Request failed: " ++ msg)%string).
Proof.
  unfold reply_to, tool_request. intros H Hs Hb.
  unfold call_tool. unfold_monad. cbn.
  rewrite H, (raise_for_status_accepts r Hs).
  unfold response_json. rewrite Hb. reflexivity.
Qed.

Lemma call_tool_decoder_limit (st : state) (tool_name : string)
    (arguments : value) (r : response) :
  reply_to st (tool_request (self st) tool_name arguments) = Replied r ->
  is_error_status (status_code r) = false ->
  (body r = inl TooManyDigits ->
   fst (call_tool py_str tool_name arguments st) = Raise ValueError) /\
  (body r = inl TooDeep ->
   fst (call_tool py_str tool_name arguments st) = Raise RecursionError).
Proof.
  unfold reply_to, tool_request. intros H Hs.
  unfold call_tool. unfold_monad. cbn.
  rewrite H, (raise_for_status_accepts r Hs).
  unfold response_json.
  split; intros Hb; rewrite Hb; reflexivity.
Qed.

(** The lines of [call_tool] after [result = response.json()]. *)
Lemma call_tool_decoded (st : state) (tool_name : string) (arguments : value)
    (r : response) (result : value) :
  reply_to st (tool_request (self st) tool_name arguments) = Replied r ->
  is_error_status (status_code r) = false ->
  body r = inr result ->
  fst (call_tool py_str tool_name arguments st)
  = match py_in "error" result with
    | Raise e => Raise e
    | Ok true =>
        match py_getitem result "error" with
        | Raise e => Raise e
        | Ok err =>
            match py_get err "message" (VStr "Unknown error") with
            | Raise e => Raise e
            | Ok message =>
                Raise (Exception ("MCP Error: " ++ py_str message)%string)
            end
        end
    | Ok false => py_get result "result" (VDict [])
    end.
Proof.
  unfold reply_to, tool_request. intros H Hs Hb.
  unfold call_tool. unfold_monad. cbn.
  rewrite H, (raise_for_status_accepts r Hs).
  unfold response_json. rewrite Hb.
  destruct (py_in "error" result) as [[|]|e] eqn:Hin.
  - destruct (py_getitem result "error") as [err|e] eqn:Hget.
    + destruct (py_get err "message" (VStr "Unknown error")) as [m|e] eqn:Hm;
        [ reflexivity | ].
      destruct e; try reflexivity.
      destruct err; discriminate.
    + destruct e; try reflexivity.
      destruct result; cbn in Hget; try discriminate.
      destruct (lookup "error" entries); discriminate.
  - destruct (py_get result "result" (VDict [])) as [v|e] eqn:Hres;
      [ reflexivity | ].
    destruct e; try reflexivity.
    destruct result; discriminate.
  - destruct e; try reflexivity.
    destruct result; discriminate.
Qed.

Lemma get_personas_result (st : state) :
  fst (get_personas st)
  = match reply_to st (personas_request (self st)) with
    | Failed cls msg => Raise (RequestException cls msg)
    | Replied r =>
        match raise_for_status r with
        | Raise e => Raise e
        | Ok _ => response_json r
        end
    end.
Proof.
  unfold reply_to, personas_request, get_personas. unfold_monad. cbn.
  case_matches; reflexivity.
Qed.

Lemma get_persona_result (st : state) (persona_id : string) :
  fst (get_persona persona_id st)
  = match reply_to st (persona_request (self st) persona_id) with
    | Failed cls msg => Raise (RequestException cls msg)
    | Replied r =>
        match raise_for_status r with
        | Raise e => Raise e
        | Ok _ => response_json r
        end
    end.
Proof.
  unfold reply_to, persona_request, get_persona. unfold_monad. cbn.
  case_matches; reflexivity.
Qed.

Lemma kind_of_request_failed (msg : string) :
  kind_of (Exception ("Request failed: " ++ msg)%string) = Some TransportError.
Proof. reflexivity. Qed.

Lemma kind_of_mcp_error (msg : string) :
  kind_of (Exception ("MCP Error: " ++ msg)%string) = Some RemoteError.
Proof. reflexivity. Qed.

(** ** The claims about one operation *)

(** C1, as the code has it.  When the exchange succeeds with a 2xx status
    and the decoded mapping has an ["error"] entry, [call_tool] never returns
    a result; when that entry is a mapping, [call_tool] raises the exception the specification
    calls RemoteError, whose text is [MCP Error: ] followed by the entry's
    ["message"], or by [Unknown error] when it has none. *)
Theorem call_tool_error_field_raises_RemoteError
    (st : state) (tool_name : string) (arguments : value)
    (r : response) (d : list (string * value)) (err : value) :
  reply_to st (tool_request (self st) tool_name arguments) = Replied r ->
  is_success_status (status_code r) = true ->
  body r = inr (VDict d) ->
  lookup "error" d = Some err ->
  (forall v, fst (call_tool py_str tool_name arguments st) <> Ok v) /\
  (forall e, err = VDict e ->
     (exists msg,
        fst (call_tool py_str tool_name arguments st) = Raise (Exception msg)
        /\ kind_of (Exception msg) = Some RemoteError) /\
     (forall s, lookup "message" e = Some (VStr s) ->
        fst (call_tool py_str tool_name arguments st)
        = Raise (Exception ("MCP Error: " ++ s)%string)) /\
     (forall m, lookup "message" e = Some m ->
        fst (call_tool py_str tool_name arguments st)
        = Raise (Exception ("MCP Error: " ++ py_str m)%string)) /\
     (lookup "message" e = None ->
        fst (call_tool py_str tool_name arguments st)
        = Raise (Exception "MCP Error: Unknown error"))).
Proof.
  intros Hreply Hstatus Hbody Herr.
  pose proof (call_tool_decoded st tool_name arguments r (VDict d) Hreply
                (success_is_not_error _ Hstatus) Hbody) as Hrun.
  unfold py_in, py_getitem, has_key in Hrun. rewrite Herr in Hrun.
  cbv beta iota in Hrun.
  split.
  - intros v Hv. rewrite Hrun in Hv.
    destruct (py_get err "message" (VStr "Unknown error")); discriminate.
  - intros e ->. unfold py_get in Hrun.
    repeat split.
    + eexists. split; [ exact Hrun | apply kind_of_mcp_error ].
    + intros s Hs. rewrite Hrun, Hs, py_str_VStr. reflexivity.
    + intros m Hm. rewrite Hrun, Hm. reflexivity.
    + intros Hnone. rewrite Hrun, Hnone, py_str_VStr. reflexivity.
Qed.

(** C3, as the code has it.  Whatever the operation ([call_tool],
    [get_personas], [get_persona]), a response with a 4xx or 5xx status (a
    500 among them), the statuses [raise_for_status] rejects, makes it raise,
    and what it raises is of the kind the specification calls
    TransportError. *)
Theorem error_status_raises_TransportError
    (st : state) (o : operation) (r : response) :
  reply_to st (request_of (self st) o) = Replied r ->
  is_error_status (status_code r) = true ->
  exists e,
    fst (perform py_str o st) = Raise e /\ kind_of e = Some TransportError.
Proof.
  intros Hreply Hstatus.
  destruct (raise_for_status_rejects r Hstatus) as [text Htext].
  destruct o as [tool_name arguments | | persona_id];
    cbn [perform request_of] in *.
  - destruct (call_tool_rejected st tool_name arguments r Hreply Hstatus)
      as [msg Hmsg].
    exists (Exception ("Request failed: " ++ msg)%string).
    split; [ exact Hmsg | apply kind_of_request_failed ].
  - exists (RequestException HTTPError text).
    rewrite get_personas_result, Hreply, Htext. split; reflexivity.
  - exists (RequestException HTTPError text).
    rewrite get_persona_result, Hreply, Htext. split; reflexivity.
Qed.

(** C4. When the exchange succeeds with a 2xx status and the decoded mapping
    has no ["error"] entry, [call_tool] returns the ["result"] entry as it
    is, and the empty mapping when there is no ["result"] entry either. *)
Theorem call_tool_returns_result_or_empty
    (st : state) (tool_name : string) (arguments : value)
    (r : response) (d : list (string * value)) :
  reply_to st (tool_request (self st) tool_name arguments) = Replied r ->
  is_success_status (status_code r) = true ->
  body r = inr (VDict d) ->
  lookup "error" d = None ->
  (lookup "result" d = None ->
     fst (call_tool py_str tool_name arguments st) = Ok (VDict [])) /\
  (forall v, lookup "result" d = Some v ->
     fst (call_tool py_str tool_name arguments st) = Ok v).
Proof.
  intros Hreply Hstatus Hbody Herr.
  pose proof (call_tool_decoded st tool_name arguments r (VDict d) Hreply
                (success_is_not_error _ Hstatus) Hbody) as Hrun.
  unfold py_in, py_get, has_key in Hrun. rewrite Herr in Hrun.
  cbv beta iota in Hrun.
  split.
  - intros Hnone. rewrite Hrun, Hnone. reflexivity.
  - intros v Hv. rewrite Hrun, Hv. reflexivity.
Qed.

(** C5. Every call of [call_tool], whatever the server answers and whether
    the call returns or raises, leaves [request_id] one higher than it was and
    every other attribute of the client as it was. *)
Theorem call_tool_bumps_request_id
    (st : state) (tool_name : string) (arguments : value) :
  let c := self st in
  let c' := self (snd (call_tool py_str tool_name arguments st)) in
  request_id c' = request_id c + 1 /\
  mcp_url c' = mcp_url c /\
  api_url c' = api_url c /\
  session c' = session c.
Proof.
  cbn zeta. rewrite call_tool_state. cbn. repeat split.
Qed.

(** C6. [call_tool] hands exactly one request to the session: a POST to the
    client's [mcp_url] with the header [Content-Type: application/json] and,
    as JSON body, the envelope with the protocol marker, the method
    [tools/call], the tool name and the arguments as given, and the request
    identifier just drawn. *)
Theorem call_tool_posts_envelope
    (st : state) (tool_name : string) (arguments : value) :
  let st' := snd (call_tool py_str tool_name arguments st) in
  sent (net st')
  = sent (net st) ++
    [ mkRequest POST (mcp_url (self st))
        (Some (VDict [ ("jsonrpc", VStr "2.0");
                       ("method", VStr "tools/call");
                       ("params", VDict [ ("name", VStr tool_name);
                                          ("arguments", arguments) ]);
                       ("id", VInt (request_id (self st'))) ]))
        [ ("Content-Type", "application/json") ] ].
Proof.
  cbn zeta. rewrite call_tool_state. reflexivity.
Qed.

(** C7. When the exchange succeeds with a 2xx status and the body decodes to
    a list, [get_personas] returns that very list. *)
Theorem get_personas_returns_list
    (st : state) (r : response) (personas : list value) :
  reply_to st (personas_request (self st)) = Replied r ->
  is_success_status (status_code r) = true ->
  body r = inr (VList personas) ->
  fst (get_personas st) = Ok (VList personas).
Proof.
  intros Hreply Hstatus Hbody.
  rewrite get_personas_result, Hreply.
  rewrite (raise_for_status_accepts r (success_is_not_error _ Hstatus)).
  unfold response_json. rewrite Hbody. reflexivity.
Qed.

(** ** Sequences of operations *)

Lemma perform_state (st : state) (o : operation) :
  snd (perform py_str o st)
  = mkState (client_after (self st) o)
            (logged (net st) (request_of (self st) o)).
Proof.
  destruct o as [tool_name arguments | | persona_id];
    cbn [perform request_of client_after is_tool_call].
  - apply call_tool_state.
  - apply get_personas_state.
  - apply get_persona_state.
Qed.

Lemma perform_all_cons (o : operation) (rest : list operation) (st : state) :
  snd (perform_all py_str (o :: rest) st)
  = snd (perform_all py_str rest (snd (perform py_str o st))).
Proof.
  cbn [perform_all].
  destruct (perform py_str o st) as [r st'].
  destruct (perform_all py_str rest st') as [rs st''] eqn:E.
  cbn [snd]. rewrite E. reflexivity.
Qed.

Lemma perform_all_log (ops : list operation) :
  forall st,
    sent (net (snd (perform_all py_str ops st)))
    = sent (net st) ++ requests_of (self st) ops.
Proof.
  induction ops as [| o rest IH]; intros st.
  - cbn. now rewrite app_nil_r.
  - rewrite perform_all_cons, IH, perform_state.
    cbn [self net logged sent requests_of].
    now rewrite <- app_assoc.
Qed.

Lemma perform_all_client (ops : list operation) :
  forall st,
    self (snd (perform_all py_str ops st))
    = fold_left client_after ops (self st).
Proof.
  induction ops as [| o rest IH]; intros st.
  - reflexivity.
  - rewrite perform_all_cons, IH, perform_state. reflexivity.
Qed.

Lemma sent_since_perform_all (ops : list operation) (st : state) :
  sent_since st (snd (perform_all py_str ops st)) = requests_of (self st) ops.
Proof.
  unfold sent_since. rewrite perform_all_log.
  rewrite skipn_app, skipn_all, Nat.sub_diag. reflexivity.
Qed.

Lemma envelope_ids_of_requests (ops : list operation) :
  forall c,
    map envelope_id (filter is_post (requests_of c ops))
    = map (fun n => Some (VInt n))
          (count_up (request_id c + 1)
                    (List.length (filter is_tool_call ops))).
Proof.
  induction ops as [| o rest IH]; intros c.
  - reflexivity.
  - destruct o as [tool_name arguments | | persona_id];
      cbn [requests_of request_of client_after is_tool_call filter
           tool_request personas_request persona_request is_post rq_method
           List.length count_up map].
    + rewrite IH. reflexivity.
    + apply IH.
    + apply IH.
Qed.

Lemma request_id_after_all (ops : list operation) :
  forall c,
    request_id (fold_left client_after ops c)
    = request_id c + Z.of_nat (List.length (filter is_tool_call ops)).
Proof.
  induction ops as [| o rest IH]; intros c.
  - cbn. lia.
  - cbn [fold_left]. rewrite IH.
    destruct o; cbn [client_after is_tool_call filter List.length bumped
                     request_id]; lia.
Qed.

Lemma nth_error_count_up (n : nat) :
  forall from k x,
    nth_error (count_up from n) k = Some x -> x = from + Z.of_nat k.
Proof.
  induction n as [| n IH]; intros from k x H.
  - destruct k; discriminate.
  - destruct k as [| k]; cbn in H.
    + injection H as <-. lia.
    + apply IH in H. lia.
Qed.

(** C2. On a client fresh from [__init__], whatever operations are performed
    and whatever the server answers, the envelopes posted carry the ["id"]s
    1, 2, 3, ... in the order they are sent, one per [call_tool]: the n-th
    envelope has ["id"] n. *)
Theorem envelope_ids_count_from_one
    (mcp api : string) (s : Session) (w : world) (ops : list operation) :
  let st0 := mkState (__init__ mcp api s) w in
  let envelopes :=
    filter is_post (sent_since st0 (snd (perform_all py_str ops st0))) in
  map envelope_id envelopes
  = map (fun n => Some (VInt n))
        (count_up 1 (List.length (filter is_tool_call ops))) /\
  forall k rq,
    nth_error envelopes k = Some rq ->
    envelope_id rq = Some (VInt (Z.of_nat k + 1)).
Proof.
  cbn zeta. rewrite sent_since_perform_all.
  pose proof (envelope_ids_of_requests ops (__init__ mcp api s)) as Hids.
  cbn [__init__ request_id self] in *.
  split; [ exact Hids | ].
  intros k rq Hk.
  apply (map_nth_error envelope_id) in Hk.
  rewrite Hids in Hk.
  rewrite nth_error_map in Hk.
  destruct (nth_error (count_up (0 + 1) _) k) as [n |] eqn:Hn;
    [ | discriminate ].
  apply nth_error_count_up in Hn. subst n.
  cbn in Hk. injection Hk as <-.
  replace (Z.of_nat k + 1) with (0 + 1 + Z.of_nat k) by lia.
  reflexivity.
Qed.

(** C10. [get_personas] and [get_persona] leave the client as it was,
    [request_id] included, whether they return or raise; and over any
    sequence of operations [request_id] grows by the number of [call_tool]s
    in it, so nothing else moves it. *)
Theorem rest_operations_keep_client
    (st : state) (persona_id : string) (ops : list operation) :
  self (snd (get_personas st)) = self st /\
  self (snd (get_persona persona_id st)) = self st /\
  request_id (self (snd (perform_all py_str ops st)))
  = request_id (self st) + Z.of_nat (List.length (filter is_tool_call ops)).
Proof.
  rewrite get_personas_state, get_persona_state.
  rewrite perform_all_client, request_id_after_all.
  repeat split.
Qed.

(** ** Failure kinds *)



(** ** The log only grows *)

Lemma appends_ret {A} (a : A) : appends (ret a).
Proof. intros st. exists []. cbn. now rewrite app_nil_r. Qed.

Lemma appends_raise {A} (e : exn) : appends (@raise A e).
Proof. intros st. exists []. cbn. now rewrite app_nil_r. Qed.

Lemma appends_lift {A} (r : result A) : appends (lift r).
Proof. intros st. exists []. cbn. now rewrite app_nil_r. Qed.

Lemma appends_get_self : appends get_self.
Proof. intros st. exists []. cbn. now rewrite app_nil_r. Qed.

Lemma appends_get_request_id : appends _get_request_id.
Proof. intros st. exists []. cbn. now rewrite app_nil_r. Qed.

Lemma appends_exchange (rq : request) : appends (exchange rq).
Proof.
  intros st. exists [rq]. unfold exchange.
  destruct (server (net st) (sent (net st) ++ [rq])); reflexivity.
Qed.

Lemma appends_bind {A B} (m : M A) (k : A -> M B) :
  appends m -> (forall a, appends (k a)) -> appends (bind m k).
Proof.
  intros Hm Hk st. unfold bind.
  destruct (Hm st) as [more1 H1].
  destruct (m st) as [[a | e] st1]; cbn [snd] in *.
  - destruct (Hk a st1) as [more2 H2].
    exists (more1 ++ more2). rewrite H2, H1. now rewrite app_assoc.
  - exists more1. exact H1.
Qed.

Lemma appends_try_except {A} (body : M A) (catches : exn -> bool)
    (handler : exn -> M A) :
  appends body -> (forall e, appends (handler e)) ->
  appends (try_except body catches handler).
Proof.
  intros Hb Hh st. unfold try_except.
  destruct (Hb st) as [more1 H1].
  destruct (body st) as [[a | e] st1]; cbn [snd] in *.
  - exists more1. exact H1.
  - destruct (catches e).
    + destruct (Hh e st1) as [more2 H2].
      exists (more1 ++ more2). rewrite H2, H1. now rewrite app_assoc.
    + exists more1. exact H1.
Qed.

Ltac appends_step :=
  first
    [ apply appends_ret | apply appends_raise | apply appends_lift
    | apply appends_get_self | apply appends_get_request_id
    | apply appends_exchange
    | apply appends_bind | apply appends_try_except
    | match goal with
      | |- appends (if ?b then _ else _) => destruct b
      | |- forall _, _ => intro
      end ].

Ltac appends_tac := repeat appends_step.

Lemma appends_call_tool (tool_name : string) (arguments : value) :
  appends (call_tool py_str tool_name arguments).
Proof. unfold call_tool, session_post. appends_tac. Qed.

Lemma appends_get_personas : appends get_personas.
Proof. unfold get_personas, session_get. appends_tac. Qed.

Lemma appends_get_persona (persona_id : string) :
  appends (get_persona persona_id).
Proof. unfold get_persona, session_get. appends_tac. Qed.

Ltac appends_example :=
  unfold swallow;
  repeat first
    [ apply appends_call_tool | apply appends_get_personas
    | apply appends_get_persona | appends_step ].

Lemma appends_run_examples : appends (run_examples py_str).
Proof.
  unfold run_examples, example_1_get_recommendations,
    example_2_explain_persona_fit, example_3_compare_personas,
    example_4_use_rest_api, example_5_system_stats,
    example_6_practical_workflow.
  appends_example.
Qed.

(** ** [main] *)

Lemma test_connection_state (st : state) :
  snd (test_connection st) = mkState (self st) (logged (net st) health_request).
Proof.
  unfold test_connection. unfold_monad. cbn.
  unfold logged, health_request.
  case_matches; reflexivity.
Qed.

Lemma test_connection_fails (st : state) :
  health_check_fails (reply_to st health_request) = true ->
  fst (test_connection st) = Raise (SystemExit 1).
Proof.
  unfold reply_to, health_request, test_connection. unfold_monad. cbn.
  destruct (server (net st) _) as [r | cls msg]; cbn; intros H.
  - destruct (raise_for_status_rejects r H) as [text ->]. reflexivity.
  - reflexivity.
Qed.

(** C8, as the code has it.  In every run the liveness check is the first
    request [main] sends; and if it fails, by raising a [RequestException] or
    by answering with a status [raise_for_status] rejects (4xx or 5xx),
    [main] leaves with [SystemExit(1)], exit status 1, having sent nothing
    else and having drawn no request identifier. *)
Theorem main_halts_when_health_check_fails (s : Session) (w : world) :
  let run := main py_str s w in
  (exists more, sent (net (snd run)) = sent w ++ health_request :: more) /\
  (health_check_fails (server w (sent w ++ [health_request])) = true ->
   fst run = Raise (SystemExit 1) /\
   exit_status (fst run) = 1 /\
   sent (net (snd run)) = sent w ++ [health_request] /\
   self (snd run) = __init__ default_mcp_url default_api_url s).
Proof.
  cbn zeta. unfold main, main_body.
  set (st0 := mkState (__init__ default_mcp_url default_api_url s) w).
  pose proof (test_connection_state st0) as Hstate.
  split.
  - unfold bind at 1.
    destruct (test_connection st0) as [[[] | e] st1]; cbn [snd] in *;
      subst st1.
    + destruct (appends_try_except (run_examples py_str) is_Exception
                  (fun e => lift (py_print [exn_str e])) appends_run_examples
                  (fun e => appends_lift (py_print [exn_str e]))
                  (mkState (self st0) (logged (net st0) health_request)))
        as [more Hmore].
      exists more. rewrite Hmore. cbn. now rewrite <- app_assoc.
    + exists []. reflexivity.
  - intros Hfails.
    pose proof (test_connection_fails st0 Hfails) as Hraise.
    unfold bind at 1 2 3 4.
    destruct (test_connection st0) as [res st1]; cbn [fst snd] in *.
    subst res st1. cbn. repeat split.
Qed.

End Properties.

(** * The properties on concrete runs *)

Lemma py_str_plain_VStr (s : string) : py_str_plain (VStr s) = s.
Proof. reflexivity. Defined.

Lemma call_tool_error_field_raises_RemoteError_witness :
  let st := fresh (always (ok_json boom)) in
  let call := call_tool py_str_plain "recommend-persona" (VDict []) st in
  is_success_status 200 = true /\
  lookup "error" [ ("error", VDict [ ("code", VInt (-32601));
                                     ("message", VStr "boom") ]) ]
  = Some (VDict [ ("code", VInt (-32601)); ("message", VStr "boom") ]) /\
  fst call = Raise (Exception "MCP Error: boom") /\
  (forall v, fst call <> Ok v).
Proof.
  cbn zeta.
  destruct (call_tool_error_field_raises_RemoteError
              py_str_plain py_str_plain_VStr
              (fresh (always (ok_json boom)))
              "recommend-persona" (VDict [])
              (mkResponse 200 "OK" "http://localhost:3000/" (inr boom))
              [ ("error", VDict [ ("code", VInt (-32601));
                                  ("message", VStr "boom") ]) ]
              (VDict [ ("code", VInt (-32601)); ("message", VStr "boom") ])
              eq_refl eq_refl eq_refl eq_refl)
    as [Hnever Hremote].
  destruct (Hremote _ eq_refl) as [_ [Hmessage _]].
  split; [ reflexivity | ].
  split; [ reflexivity | ].
  split; [ exact (Hmessage "boom" eq_refl) | exact Hnever ].
Defined.

Lemma error_status_raises_TransportError_witness :
  is_error_status 500 = true /\
  (exists e,
     fst (call_tool py_str_plain "recommend-persona" (VDict [])
            (fresh (always internal_server_error))) = Raise e
     /\ kind_of e = Some TransportError) /\
  (exists e,
     fst (get_personas (fresh (always internal_server_error))) = Raise e
     /\ kind_of e = Some TransportError) /\
  (exists e,
     fst (get_persona "security-analyst"
            (fresh (always internal_server_error))) = Raise e
     /\ kind_of e = Some TransportError).
Proof.
  split; [ reflexivity | ].
  split; [ | split ].
  - exact (error_status_raises_TransportError py_str_plain
             (fresh (always internal_server_error))
             (CallTool "recommend-persona" (VDict [])) _ eq_refl eq_refl).
  - exact (error_status_raises_TransportError py_str_plain
             (fresh (always internal_server_error))
             GetPersonas _ eq_refl eq_refl).
  - exact (error_status_raises_TransportError py_str_plain
             (fresh (always internal_server_error))
             (GetPersona "security-analyst") _ eq_refl eq_refl).
Defined.

Lemma call_tool_returns_result_or_empty_witness :
  is_success_status 200 = true /\
  fst (call_tool py_str_plain "get-recommendation-stats" (VDict [])
         (fresh (always (ok_json (VDict [ ("id", VInt 1) ])))))
  = Ok (VDict []) /\
  fst (call_tool py_str_plain "get-recommendation-stats" (VDict [])
         (fresh (always (ok_json (VDict [ ("result", VList [VInt 7]);
                                          ("id", VInt 1) ])))))
  = Ok (VList [VInt 7]).
Proof.
  split; [ reflexivity | ].
  split.
  - destruct (call_tool_returns_result_or_empty py_str_plain
                (fresh (always (ok_json (VDict [ ("id", VInt 1) ]))))
                "get-recommendation-stats" (VDict [])
                (mkResponse 200 "OK" "http://localhost:3000/"
                   (inr (VDict [ ("id", VInt 1) ])))
                [ ("id", VInt 1) ] eq_refl eq_refl eq_refl eq_refl)
      as [Hempty _].
    exact (Hempty eq_refl).
  - destruct (call_tool_returns_result_or_empty py_str_plain
                (fresh (always (ok_json (VDict [ ("result", VList [VInt 7]);
                                                 ("id", VInt 1) ]))))
                "get-recommendation-stats" (VDict [])
                (mkResponse 200 "OK" "http://localhost:3000/"
                   (inr (VDict [ ("result", VList [VInt 7]);
                                 ("id", VInt 1) ])))
                [ ("result", VList [VInt 7]); ("id", VInt 1) ]
                eq_refl eq_refl eq_refl eq_refl)
      as [_ Hresult].
    exact (Hresult _ eq_refl).
Defined.

Lemma get_personas_returns_list_witness :
  is_success_status 200 = true /\
  fst (get_personas (fresh (always (ok_json two_personas)))) = Ok two_personas.
Proof.
  split; [ reflexivity | ].
  exact (get_personas_returns_list
           (fresh (always (ok_json two_personas)))
           (mkResponse 200 "OK" "http://localhost:3000/" (inr two_personas))
           _ eq_refl eq_refl eq_refl).
Defined.

Lemma main_halts_when_health_check_fails_witness :
  let w := mkWorld (always connection_refused) [] in
  let run := main py_str_plain (mkSession 0) w in
  health_check_fails (server w (sent w ++ [health_request])) = true /\
  fst run = Raise (SystemExit 1) /\
  exit_status (fst run) = 1 /\
  sent (net (snd run)) = [health_request].
Proof.
  cbn zeta.
  destruct (main_halts_when_health_check_fails py_str_plain (mkSession 0)
              (mkWorld (always connection_refused) []))
    as [_ Hhalts].
  destruct (Hhalts eq_refl) as [Hraise [Hexit [Hsent _]]].
  repeat split; assumption.
Defined.


(** C3 as stated does not hold: a 300 is not a success status, yet
    [raise_for_status] lets it pass and [get_personas] returns the decoded
    body instead of raising. *)
Lemma get_personas_returns_on_status_300 :
  let st := fresh (always multiple_choices) in
  (exists r, reply_to st (personas_request (self st)) = Replied r
             /\ status_code r = 300
             /\ is_success_status (status_code r) = false) /\
  fst (get_personas st) = Ok (VList []).
Proof.
  cbn zeta. split.
  - eexists. repeat split.
  - reflexivity.
Qed.

(** C8 as stated does not hold: a 304 is not a 2xx status, yet
    [raise_for_status] lets it pass, [main] goes on to the examples, posts
    tool invocations and ends with exit status 0. *)
Lemma main_runs_examples_after_non_2xx_health_check :
  let w := mkWorld not_modified_then_ok [] in
  let run := main py_str_plain (mkSession 0) w in
  (exists r, server w (sent w ++ [health_request]) = Replied r
             /\ status_code r = 304
             /\ is_success_status (status_code r) = false) /\
  exit_status (fst run) = 0 /\
  map rq_method (sent (net (snd run)))
  = [GET; POST; POST; POST; GET; GET; POST; POST] /\
  nth_error (sent (net (snd run))) 1
  = Some (mkRequest POST default_mcp_url
            (Some (envelope "recommend-persona"
                     (VDict
                        [ ("title", VStr "Implement real-time chat system");
                          ("description",
                           VStr "Build a scalable real-time chat system with WebSocket support, message persistence, and user presence indicators");
                          ("keywords",
                           VList [ VStr "websocket"; VStr "real-time";
                                   VStr "chat"; VStr "scalability" ]);
                          ("complexity", VStr "complex");
                          ("domain", VStr "backend") ])
                     1))
            json_headers).
Proof.
  cbn zeta. split.
  - eexists. repeat split.
  - vm_compute. repeat split.
Qed.

(** C1 as stated does not hold: the exchange succeeds with a 200, the
    decoded mapping has an ["error"] entry, a string, and [call_tool] raises
    [AttributeError], not the exception with the text [MCP Error: ...]. *)
Lemma call_tool_error_text_is_no_RemoteError :
  let st := fresh (always (ok_json boom_as_text)) in
  let call := call_tool py_str_plain "recommend-persona" (VDict []) st in
  (exists r d,
     reply_to st (tool_request (self st) "recommend-persona" (VDict []))
     = Replied r /\
     is_success_status (status_code r) = true /\
     body r = inr (VDict d) /\
     lookup "error" d = Some (VStr "boom")) /\
  fst call = Raise AttributeError /\
  (forall msg, fst call <> Raise (Exception msg)) /\
  kind_of AttributeError <> Some RemoteError.
Proof.
  cbn zeta. split; [ | split; [ | split ] ].
  - eexists. eexists. repeat split.
  - reflexivity.
  - intros msg H. discriminate H.
  - discriminate.
Qed.

(** * Further properties of the client *)

Section Further.

Variable py_str : value -> string.

(** ** [call_tool] *)

(** What [call_tool] makes of a decoded document that is not a mapping. *)
Lemma call_tool_not_a_mapping (st : state) (tool_name : string)
    (arguments : value) (r : response) (v : value) :
  reply_to st (tool_request (self st) tool_name arguments) = Replied r ->
  is_error_status (status_code r) = false ->
  body r = inr v ->
  (forall d, v <> VDict d) ->
  fst (call_tool py_str tool_name arguments st) = Raise TypeError \/
  fst (call_tool py_str tool_name arguments st) = Raise AttributeError.
Proof.
  intros Hreply Hs Hb Hv.
  rewrite (call_tool_decoded py_str st tool_name arguments r v Hreply Hs Hb).
  destruct v; cbn; auto.
  - destruct (infixb "error" s); auto.
  - destruct (existsb (eq_str "error") items); auto.
  - exfalso. exact (Hv entries eq_refl).
Qed.

(** X1.  [call_tool] returns in one situation only: the status is not rejected,
    the body decodes to a mapping, and the mapping has no ["error"] entry;
    what it returns is then the ["result"] entry, or the empty mapping. *)
Theorem call_tool_returns_iff
    (st : state) (tool_name : string) (arguments : value) (v : value) :
  fst (call_tool py_str tool_name arguments st) = Ok v <->
  exists r d,
    reply_to st (tool_request (self st) tool_name arguments) = Replied r /\
    is_error_status (status_code r) = false /\
    body r = inr (VDict d) /\
    lookup "error" d = None /\
    v = match lookup "result" d with Some x => x | None => VDict [] end.
Proof.
  split.
  - intros Hok.
    destruct (reply_to st (tool_request (self st) tool_name arguments))
      as [r | cls msg] eqn:Hreply.
    + destruct (is_error_status (status_code r)) eqn:Hs.
      * destruct (call_tool_rejected py_str st tool_name arguments r Hreply Hs)
          as [msg Hmsg].
        rewrite Hmsg in Hok. discriminate.
      * destruct (call_tool_decoder_limit py_str st tool_name arguments r
                    Hreply Hs) as [Hdigits Hdeep].
        destruct (body r) as [[msg | | ] | doc] eqn:Hb.
        -- rewrite (call_tool_undecodable py_str st tool_name arguments r msg
                      Hreply Hs Hb) in Hok.
           discriminate.
        -- rewrite (Hdigits eq_refl) in Hok. discriminate.
        -- rewrite (Hdeep eq_refl) in Hok. discriminate.
        -- destruct doc as [ | b | n | x | s | items | d ];
             try (destruct (call_tool_not_a_mapping st tool_name arguments r _
                              Hreply Hs Hb) as [H | H];
                  [ discriminate | rewrite H in Hok; discriminate
                  | rewrite H in Hok; discriminate ]).
           rewrite (call_tool_decoded py_str st tool_name arguments r (VDict d)
                      Hreply Hs Hb) in Hok.
           unfold py_in, py_getitem, py_get, has_key in Hok.
           destruct (lookup "error" d) as [err |] eqn:Herr.
           ++ destruct err; discriminate.
           ++ injection Hok as <-. exists r, d. repeat split; assumption.
    + rewrite (call_tool_failed py_str st tool_name arguments cls msg Hreply)
        in Hok.
      discriminate.
  - intros [r [d [Hreply [Hs [Hb [Herr ->]]]]]].
    rewrite (call_tool_decoded py_str st tool_name arguments r (VDict d)
               Hreply Hs Hb).
    unfold py_in, py_get, has_key. rewrite Herr. reflexivity.
Qed.

Lemma call_tool_raised_classes
    (st : state) (tool_name : string) (arguments : value) (e : exn) :
  fst (call_tool py_str tool_name arguments st) = Raise e ->
  (exists msg, e = Exception msg) \/ builtin_error e = true.
Proof.
  intros Hfail.
  destruct (reply_to st (tool_request (self st) tool_name arguments))
    as [r | cls msg] eqn:Hreply.
  - destruct (is_error_status (status_code r)) eqn:Hs.
    + destruct (call_tool_rejected py_str st tool_name arguments r Hreply Hs)
        as [msg Hmsg].
      rewrite Hmsg in Hfail. injection Hfail as <-. left. eexists. reflexivity.
    + destruct (call_tool_decoder_limit py_str st tool_name arguments r
                  Hreply Hs) as [Hdigits Hdeep].
      destruct (body r) as [[msg | | ] | doc] eqn:Hb.
      * rewrite (call_tool_undecodable py_str st tool_name arguments r msg
                   Hreply Hs Hb) in Hfail.
        injection Hfail as <-. left. eexists. reflexivity.
      * rewrite (Hdigits eq_refl) in Hfail. injection Hfail as <-. now right.
      * rewrite (Hdeep eq_refl) in Hfail. injection Hfail as <-. now right.
      * rewrite (call_tool_decoded py_str st tool_name arguments r doc
                   Hreply Hs Hb) in Hfail.
        destruct doc as [ | b | n | x | s | items | d ]; cbn in Hfail;
          try (injection Hfail as <-; now right).
        -- destruct (infixb "error" s); injection Hfail as <-; now right.
        -- destruct (existsb (eq_str "error") items);
             injection Hfail as <-; now right.
        -- unfold has_key in Hfail.
           destruct (lookup "error" d) as [err |].
           ++ destruct err; cbn in Hfail; injection Hfail as <-;
                try (now right).
              left. eexists. reflexivity.
           ++ discriminate.
  - rewrite (call_tool_failed py_str st tool_name arguments cls msg Hreply)
      in Hfail.
    injection Hfail as <-. left. eexists. reflexivity.
Qed.

(** X2.  No exception of [requests] gets out of [call_tool]: whatever the
    server does and whatever [call_tool] raises, a caller's
    [except requests.exceptions.RequestException] does not catch it. *)
Theorem call_tool_lets_no_requests_exception_out
    (st : state) (tool_name : string) (arguments : value) (e : exn) :
  fst (call_tool py_str tool_name arguments st) = Raise e ->
  is_RequestException e = false.
Proof.
  intros Hfail.
  destruct (call_tool_raised_classes st tool_name arguments e Hfail)
    as [[msg ->] | Hb]; [ reflexivity | ].
  destruct e; try reflexivity; discriminate.
Qed.

(** X3.  When the exchange fails below the application, [call_tool] raises
    [Exception] with the text [Request failed: ] followed by the text of the
    exception of [requests]: the one [Session.post] raised, the one
    [raise_for_status] raised, or the [JSONDecodeError] [Response.json]
    raised. *)
Theorem call_tool_keeps_transport_text
    (st : state) (tool_name : string) (arguments : value) :
  let reply := reply_to st (tool_request (self st) tool_name arguments) in
  let raised := fst (call_tool py_str tool_name arguments st) in
  (forall cls msg, reply = Failed cls msg ->
     raised = Raise (Exception ("Request failed: " ++ msg)%string)) /\
  (forall r e, reply = Replied r -> raise_for_status r = Raise e ->
     raised = Raise (Exception ("Request failed: " ++ exn_str e)%string)) /\
  (forall r msg, reply = Replied r -> raise_for_status r = Ok tt ->
     response_json r = Raise (RequestException JSONDecodeError msg) ->
     raised = Raise (Exception ("Request failed: " ++ msg)%string)).
Proof.
  cbn zeta. unfold reply_to, tool_request. repeat split.
  - intros cls msg H.
    unfold call_tool, bind, try_except, session_post, exchange, get_self,
      _get_request_id, lift, raise, ret.
    cbn. rewrite H. reflexivity.
  - intros r e H He.
    unfold call_tool, bind, try_except, session_post, exchange, get_self,
      _get_request_id, lift, raise, ret.
    cbn. rewrite H, He.
    unfold raise_for_status in He.
    destruct ((400 <=? status_code r) && (status_code r <? 500));
      [ injection He as <-; reflexivity | ].
    destruct ((500 <=? status_code r) && (status_code r <? 600));
      [ injection He as <-; reflexivity | discriminate ].
  - intros r msg H Hs He.
    unfold call_tool, bind, try_except, session_post, exchange, get_self,
      _get_request_id, lift, raise, ret.
    cbn. rewrite H, Hs, He. reflexivity.
Qed.

(** X4.  When the ["error"] entry of a transported mapping is anything but a
    mapping (a string, a number, [null], a list), [call_tool] raises
    [AttributeError]: the entry has no [get]. *)
Theorem call_tool_error_not_a_mapping
    (st : state) (tool_name : string) (arguments : value)
    (r : response) (d : list (string * value)) (err : value) :
  reply_to st (tool_request (self st) tool_name arguments) = Replied r ->
  is_error_status (status_code r) = false ->
  body r = inr (VDict d) ->
  lookup "error" d = Some err ->
  (forall e, err <> VDict e) ->
  fst (call_tool py_str tool_name arguments st) = Raise AttributeError.
Proof.
  intros Hreply Hs Hb Herr Hshape.
  rewrite (call_tool_decoded py_str st tool_name arguments r (VDict d)
             Hreply Hs Hb).
  unfold py_in, py_getitem, has_key. rewrite Herr.
  destruct err; try reflexivity.
  exfalso. exact (Hshape entries eq_refl).
Qed.

(** X5.  When the body decodes to a list, the outcome depends on whether the
    string ["error"] is one of its items: [TypeError] if it is (a list is
    not indexed by a string), [AttributeError] if not (a list has no
    [get]). *)
Theorem call_tool_on_a_list
    (st : state) (tool_name : string) (arguments : value)
    (r : response) (items : list value) :
  reply_to st (tool_request (self st) tool_name arguments) = Replied r ->
  is_error_status (status_code r) = false ->
  body r = inr (VList items) ->
  fst (call_tool py_str tool_name arguments st)
  = if existsb (eq_str "error") items then Raise TypeError
    else Raise AttributeError.
Proof.
  intros Hreply Hs Hb.
  rewrite (call_tool_decoded py_str st tool_name arguments r (VList items)
             Hreply Hs Hb).
  cbn. destruct (existsb (eq_str "error") items); reflexivity.
Qed.

(** ** [get_personas] and [get_persona] *)

Lemma rest_returns_iff (o : outcome) (v : value) :
  match o with
  | Failed cls msg => Raise (RequestException cls msg)
  | Replied r =>
      match raise_for_status r with
      | Raise e => Raise e
      | Ok _ => response_json r
      end
  end = Ok v <->
  exists r, o = Replied r /\ is_error_status (status_code r) = false /\
            body r = inr v.
Proof.
  split.
  - destruct o as [r | cls msg]; [ | discriminate ].
    destruct (is_error_status (status_code r)) eqn:Hs.
    + destruct (raise_for_status_rejects r Hs) as [text ->]. discriminate.
    + rewrite (raise_for_status_accepts r Hs). unfold response_json.
      destruct (body r) as [[msg | | ] | doc] eqn:Hb; try discriminate.
      intros H. injection H as <-. exists r. auto.
  - intros [r [-> [Hs Hb]]].
    rewrite (raise_for_status_accepts r Hs). unfold response_json.
    rewrite Hb. reflexivity.
Qed.

Lemma rest_raised_classes (o : outcome) (e : exn) :
  match o with
  | Failed cls msg => Raise (RequestException cls msg)
  | Replied r =>
      match raise_for_status r with
      | Raise e => Raise e
      | Ok _ => response_json r
      end
  end = Raise e ->
  (exists cls msg, e = RequestException cls msg) \/ builtin_error e = true.
Proof.
  destruct o as [r | cls msg].
  - destruct (is_error_status (status_code r)) eqn:Hs.
    + destruct (raise_for_status_rejects r Hs) as [text ->].
      intros H. injection H as <-. left. eauto.
    + rewrite (raise_for_status_accepts r Hs). unfold response_json.
      destruct (body r) as [[msg | | ] | doc] eqn:Hb; try discriminate;
        intros H; injection H as <-; [ left; eauto | now right | now right ].
  - intros H. injection H as <-. left. eauto.
Qed.

(** X6.  The two REST operations return whatever the body decodes to, and they
    return exactly when the status is not rejected and the body decodes: a
    mapping with an ["error"] entry is returned like any other document. *)
Theorem rest_operations_return_iff
    (st : state) (persona_id : string) (v : value) :
  (fst (get_personas st) = Ok v <->
   exists r, reply_to st (personas_request (self st)) = Replied r /\
             is_error_status (status_code r) = false /\ body r = inr v) /\
  (fst (get_persona persona_id st) = Ok v <->
   exists r, reply_to st (persona_request (self st) persona_id) = Replied r /\
             is_error_status (status_code r) = false /\ body r = inr v).
Proof.
  rewrite get_personas_result, get_persona_result.
  split; apply rest_returns_iff.
Qed.

(** X7.  The two REST operations wrap nothing: what [Session.get] raises,
    what [raise_for_status] raises and what [Response.json] raises (the
    [ValueError] and [RecursionError] of the decoder included) comes out of
    them as it was raised. *)
Theorem rest_operations_wrap_nothing (st : state) (o : operation) :
  is_tool_call o = false ->
  let reply := reply_to st (request_of (self st) o) in
  let raised := fst (perform py_str o st) in
  (forall cls msg, reply = Failed cls msg ->
     raised = Raise (RequestException cls msg)) /\
  (forall r e, reply = Replied r -> raise_for_status r = Raise e ->
     raised = Raise e) /\
  (forall r e, reply = Replied r -> raise_for_status r = Ok tt ->
     response_json r = Raise e -> raised = Raise e).
Proof.
  intros Hrest. cbn zeta.
  assert (Hrun :
    fst (perform py_str o st)
    = match reply_to st (request_of (self st) o) with
      | Failed cls msg => Raise (RequestException cls msg)
      | Replied r =>
          match raise_for_status r with
          | Raise e => Raise e
          | Ok _ => response_json r
          end
      end).
  { destruct o as [tool_name arguments | | persona_id];
      cbn [perform request_of is_tool_call] in *; [ discriminate | | ].
    - apply get_personas_result.
    - apply get_persona_result. }
  rewrite Hrun. repeat split.
  - intros cls msg ->. reflexivity.
  - intros r e -> ->. reflexivity.
  - intros r e -> -> ->. reflexivity.
Qed.

(** X19.  The limits of the decoder come out of every operation unwrapped:
    when the status is accepted and the body holds an integer of too many
    digits the operation raises [ValueError], when it is nested too deep
    [RecursionError]; [call_tool] does not turn either into its
    [Request failed] exception. *)
Theorem decoder_limits_come_out (st : state) (o : operation) (r : response) :
  reply_to st (request_of (self st) o) = Replied r ->
  is_error_status (status_code r) = false ->
  (body r = inl TooManyDigits ->
   fst (perform py_str o st) = Raise ValueError) /\
  (body r = inl TooDeep ->
   fst (perform py_str o st) = Raise RecursionError).
Proof.
  intros Hreply Hs.
  destruct o as [tool_name arguments | | persona_id];
    cbn [perform request_of] in *.
  - exact (call_tool_decoder_limit py_str st tool_name arguments r Hreply Hs).
  - rewrite get_personas_result, Hreply, (raise_for_status_accepts r Hs).
    unfold response_json. split; intros ->; reflexivity.
  - rewrite get_persona_result, Hreply, (raise_for_status_accepts r Hs).
    unfold response_json. split; intros ->; reflexivity.
Qed.

(** X8.  Each REST operation hands exactly one request to the session, a GET
    without body or headers: [get_personas] to [api_url] followed by
    [/personas], [get_persona] to that followed by [/] and the identifier as
    it is given. *)
Theorem rest_operations_send_one_get (st : state) (persona_id : string) :
  sent (net (snd (get_personas st)))
  = sent (net st) ++
    [ mkRequest GET (api_url (self st) ++ "/personas")%string None [] ] /\
  sent (net (snd (get_persona persona_id st)))
  = sent (net st) ++
    [ mkRequest GET (api_url (self st) ++ "/personas/" ++ persona_id)%string
        None [] ].
Proof.
  rewrite get_personas_state, get_persona_state. split; reflexivity.
Qed.

(** ** Sequences of operations *)

Lemma requests_of_length (ops : list operation) :
  forall c, List.length (requests_of c ops) = List.length ops.
Proof.
  induction ops as [| o rest IH]; intros c; cbn; [ | rewrite IH ]; reflexivity.
Qed.

(** X9.  No operation is retried and none is skipped: whatever fails, a sequence
    of operations hands the session one request per operation, and the k-th
    request is the one of the k-th operation. *)
Theorem one_request_per_operation (ops : list operation) (st : state) :
  let log := sent_since st (snd (perform_all py_str ops st)) in
  List.length log = List.length ops /\
  map rq_method log
  = map (fun o => if is_tool_call o then POST else GET) ops.
Proof.
  cbn zeta. rewrite sent_since_perform_all. split.
  - apply requests_of_length.
  - generalize (self st). induction ops as [| o rest IH]; intros c.
    + reflexivity.
    + cbn [requests_of map]. rewrite IH.
      destruct o; reflexivity.
Qed.

(** ** Grouping by role *)

Lemma key_eqb_is_str (a b : value) :
  key_eqb a b = true -> is_str a = is_str b.
Proof.
  destruct a as [ | x | m | f | s | l | d ], b as [ | y | n | g | t | l' | d' ];
    cbn; try discriminate; try reflexivity.
  all: destruct f; try discriminate; try reflexivity.
Qed.

Lemma key_eqb_VStr_l (s : string) (v : value) :
  key_eqb (VStr s) v = eq_str s v.
Proof. destruct v; reflexivity. Qed.

Lemma key_eqb_VStr_r (s : string) (v : value) :
  key_eqb v (VStr s) = eq_str s v.
Proof.
  destruct v as [ | x | m | f | t | l | d ]; try reflexivity.
  - destruct f; reflexivity.
  - cbn. apply String.eqb_sym.
Qed.

Lemma eq_str_true (s : string) (v : value) :
  eq_str s v = true <-> v = VStr s.
Proof.
  destruct v; cbn; split; try discriminate.
  - intros H. apply String.eqb_eq in H. now subst.
  - intros H. injection H as ->. apply String.eqb_refl.
Qed.

Lemma members_add_to_group (role persona : value)
    (by_role : list (value * list value)) :
  Permutation (members (add_to_group role persona by_role))
              (members by_role ++ [persona]).
Proof.
  unfold members.
  induction by_role as [| [r ps] rest IH]; cbn.
  - reflexivity.
  - destruct (key_eqb r role); cbn.
    + rewrite <- !app_assoc.
      apply Permutation_app_head, Permutation_app_comm.
    + rewrite <- app_assoc. apply Permutation_app_head, IH.
Qed.

Lemma keys_add_to_group (role persona : value)
    (by_role : list (value * list value)) (r' : value) (ps' : list value) :
  In (r', ps') (add_to_group role persona by_role) ->
  (exists ps, In (r', ps) by_role) \/
  (r' = role /\ forall r ps, In (r, ps) by_role -> key_eqb r role = false).
Proof.
  induction by_role as [| [r ps] rest IH]; cbn.
  - intros [H | []]. injection H as <- <-. right. split; [ reflexivity | ].
    intros ? ? [].
  - destruct (key_eqb r role) eqn:Hk; cbn.
    + intros [H | H].
      * injection H as <- <-. left. exists ps. now left.
      * left. exists ps'. now right.
    + intros [H | H].
      * injection H as <- <-. left. exists ps. now left.
      * destruct (IH H) as [[qs Hq] | [-> Hnew]].
        -- left. exists qs. now right.
        -- right. split; [ reflexivity | ].
           intros r0 ps0 [H0 | H0]; [ | exact (Hnew r0 ps0 H0) ].
           injection H0 as <- <-. exact Hk.
Qed.

Lemma distinct_keys_add_to_group (role persona : value)
    (by_role : list (value * list value)) :
  distinct_keys by_role -> distinct_keys (add_to_group role persona by_role).
Proof.
  induction by_role as [| [r ps] rest IH]; cbn.
  - intros _. split; [ intros ? ? [] | exact I ].
  - intros [Hr Hrest].
    destruct (key_eqb r role) eqn:Hk; cbn.
    + split; assumption.
    + split; [ | exact (IH Hrest) ].
      intros r' ps' Hin.
      destruct (keys_add_to_group role persona rest r' ps' Hin)
        as [[qs Hq] | [-> _]].
      * exact (Hr r' qs Hq).
      * exact Hk.
Qed.

Lemma group_of_add_to_group (s : string) (role persona : value)
    (by_role : list (value * list value)) :
  group_of s (add_to_group role persona by_role)
  = if eq_str s role then group_of s by_role ++ [persona]
    else group_of s by_role.
Proof.
  induction by_role as [| [r ps] rest IH]; cbn.
  - destruct (eq_str s role); reflexivity.
  - destruct (key_eqb r role) eqn:Hk; cbn.
    + destruct (eq_str s r) eqn:Hr.
      * apply eq_str_true in Hr. subst r.
        rewrite key_eqb_VStr_l in Hk. now rewrite Hk.
      * destruct (eq_str s role) eqn:Hrole; [ | reflexivity ].
        apply eq_str_true in Hrole. subst role.
        rewrite key_eqb_VStr_r in Hk. congruence.
    + destruct (eq_str s r) eqn:Hr.
      * apply eq_str_true in Hr. subst r.
        rewrite key_eqb_VStr_l in Hk. now rewrite Hk.
      * apply IH.
Qed.

Lemma key_eqb_printable_role (a b : value) :
  key_eqb a b = true -> printable_role a = printable_role b.
Proof.
  destruct a as [ | x | m | f | s | l | d ], b as [ | y | n | g | t | l' | d' ];
    cbn; try discriminate; try reflexivity.
  - destruct f; try discriminate; reflexivity.
  - intros H. apply String.eqb_eq in H. now subst.
Qed.

Lemma groups_ok_add_to_group (role persona : value)
    (by_role : list (value * list value)) :
  groups_ok py_str (add_to_group role persona by_role)
  = groups_ok py_str by_role
    && (printable_role role && printable py_str persona).
Proof.
  unfold groups_ok.
  induction by_role as [| [r ps] rest IH]; cbn.
  - now rewrite !andb_true_r.
  - destruct (key_eqb r role) eqn:Hk; cbn.
    + rewrite forallb_app. cbn.
      rewrite <- (key_eqb_printable_role r role Hk).
      destruct (printable_role r), (forallb (printable py_str) ps),
        (printable py_str persona), (forallb _ rest); reflexivity.
    + rewrite IH.
      destruct (printable_role r), (forallb (printable py_str) ps),
        (printable py_str persona), (printable_role role), (forallb _ rest);
        reflexivity.
Qed.

(** X10.  The first loop of [example_4_use_rest_api] loses no persona and files
    none twice: when it gets through, the groups hold, between them, exactly
    the personas of the listing (and those already filed). *)
Theorem group_by_role_keeps_everyone (personas : list value) :
  forall by_role grouped,
    group_by_role personas by_role = Ok grouped ->
    Permutation (members grouped) (members by_role ++ personas).
Proof.
  induction personas as [| p rest IH]; intros by_role grouped H; cbn in H.
  - injection H as <-. now rewrite app_nil_r.
  - destruct (py_get p "role" (VStr "unknown")) as [role | e];
      [ | discriminate ].
    destruct (hashable role); [ | discriminate ].
    rewrite (IH _ _ H), (members_add_to_group role p by_role).
    rewrite <- app_assoc. reflexivity.
Qed.

(** X11.  The first loop never opens a second group for a key it already has. *)
Theorem group_by_role_keys_distinct (personas : list value) :
  forall by_role grouped,
    distinct_keys by_role ->
    group_by_role personas by_role = Ok grouped ->
    distinct_keys grouped.
Proof.
  induction personas as [| p rest IH]; intros by_role grouped Hd H; cbn in H.
  - injection H as <-. exact Hd.
  - destruct (py_get p "role" (VStr "unknown")) as [role | e];
      [ | discriminate ].
    destruct (hashable role); [ | discriminate ].
    exact (IH _ _ (distinct_keys_add_to_group role p by_role Hd) H).
Qed.

(** X12.  When the first loop gets through, the group of a role holds the personas
    of that role in the order of the listing, a persona without ["role"]
    counting as ["unknown"]. *)
Theorem group_by_role_groups (personas : list value) (role : string) :
  forall by_role grouped,
    group_by_role personas by_role = Ok grouped ->
    group_of role grouped
    = group_of role by_role ++ filter (has_role role) personas.
Proof.
  induction personas as [| p rest IH]; intros by_role grouped H; cbn in H.
  - injection H as <-. cbn. now rewrite app_nil_r.
  - destruct p as [ | b | n | x | s | l | d ]; cbn in H; try discriminate.
    fold (role_of d) in H.
    destruct (hashable (role_of d)); [ | discriminate ].
    rewrite (IH _ _ H), group_of_add_to_group. cbn [filter has_role].
    destruct (eq_str role (role_of d)).
    + now rewrite <- app_assoc.
    + reflexivity.
Qed.

Lemma py_print_ok (texts : list string) :
  py_print texts = Ok tt <-> forallb encodable texts = true.
Proof.
  unfold py_print. destruct (forallb encodable texts); split;
    try reflexivity; discriminate.
Qed.

Lemma py_print_raises (texts : list string) (e : exn) :
  py_print texts = Raise e -> e = UnicodeEncodeError.
Proof.
  unfold py_print. destruct (forallb encodable texts); [ discriminate | ].
  intros H. now injection H.
Qed.

Lemma print_members_ok (ps : list value) :
  print_members py_str ps = Ok tt <-> forallb (printable py_str) ps = true.
Proof.
  induction ps as [| p rest IH]; cbn.
  - tauto.
  - destruct p as [ | b | n | x | s | l | d ]; cbn;
      try (split; discriminate).
    destruct (lookup "id" d) as [id |]; cbn; [ | split; discriminate ].
    destruct (lookup "name" d) as [name |]; cbn; [ | split; discriminate ].
    unfold py_print. cbn. rewrite andb_true_r.
    destruct (encodable (py_str id) && encodable (py_str name)); cbn;
      [ exact IH | split; discriminate ].
Qed.

Lemma print_groups_ok (by_role : list (value * list value)) :
  print_groups py_str by_role = Ok tt <-> groups_ok py_str by_role = true.
Proof.
  unfold groups_ok.
  induction by_role as [| [r ps] rest IH]; cbn.
  - tauto.
  - destruct r as [ | b | n | x | s | l | d ]; cbn;
      try (split; discriminate).
    unfold py_print. cbn. rewrite andb_true_r.
    destruct (encodable s); cbn; [ | split; discriminate ].
    destruct (print_members py_str ps) as [[] | e] eqn:Hm.
    + apply print_members_ok in Hm. rewrite Hm. exact IH.
    + destruct (forallb (printable py_str) ps) eqn:Hp; cbn.
      * apply print_members_ok in Hp. congruence.
      * split; discriminate.
Qed.

Lemma group_by_role_ok (personas : list value) :
  forall by_role,
    match group_by_role personas by_role with
    | Ok grouped =>
        groups_ok py_str grouped
        = groups_ok py_str by_role && forallb (listable py_str) personas
    | Raise _ => forallb (listable py_str) personas = false
    end.
Proof.
  induction personas as [| p rest IH]; intros by_role; cbn.
  - now rewrite andb_true_r.
  - destruct p as [ | b | n | x | s | l | d ]; cbn [py_get listable];
      try reflexivity.
    fold (role_of d).
    destruct (hashable (role_of d)) eqn:Hh.
    + specialize (IH (add_to_group (role_of d) (VDict d) by_role)).
      destruct (group_by_role rest _) as [grouped | e].
      * rewrite IH, groups_ok_add_to_group.
        destruct (groups_ok py_str by_role), (printable_role (role_of d)),
          (printable py_str (VDict d)), (forallb (listable py_str) rest);
          reflexivity.
      * rewrite IH. now rewrite andb_false_r.
    + destruct (role_of d); try discriminate; reflexivity.
Qed.


(** ** The example routines *)


Lemma perform_all_one (o : operation) (st : state) :
  snd (perform_all py_str [o] st) = snd (perform py_str o st).
Proof.
  cbn. destruct (perform py_str o st). reflexivity.
Qed.

Lemma perform_all_app (ops1 ops2 : list operation) :
  forall st,
    snd (perform_all py_str (ops1 ++ ops2) st)
    = snd (perform_all py_str ops2 (snd (perform_all py_str ops1 st))).
Proof.
  induction ops1 as [| o rest IH]; intros st.
  - reflexivity.
  - rewrite <- app_comm_cons, !perform_all_cons. apply IH.
Qed.

(** The handler prints the text of a built-in error and returns. *)
Lemma builtin_error_handled (e : exn) :
  builtin_error e = true ->
  is_Exception e = true /\ py_print [exn_str e] = Ok tt.
Proof. destruct e; try discriminate; intros _; split; reflexivity. Qed.

Lemma handled_cases {A} (r : result A) :
  handled r = Ok tt \/ handled r = Raise UnicodeEncodeError.
Proof.
  destruct r as [a | e]; cbn; [ now left | ].
  unfold py_print. destruct (forallb encodable [exn_str e]); auto.
Qed.

Lemma call_tool_catchable (tool_name : string) (arguments : value) :
  catchable (call_tool py_str tool_name arguments).
Proof.
  intros st e H.
  destruct (call_tool_raised_classes st tool_name arguments e H)
    as [[msg ->] | Hb]; [ reflexivity | ].
  apply (builtin_error_handled e Hb).
Qed.

Lemma get_personas_catchable : catchable get_personas.
Proof.
  intros st e H. rewrite get_personas_result in H.
  destruct (rest_raised_classes _ e H) as [[cls [msg ->]] | Hb];
    [ reflexivity | apply (builtin_error_handled e Hb) ].
Qed.

Lemma get_persona_catchable (persona_id : string) :
  catchable (get_persona persona_id).
Proof.
  intros st e H. rewrite get_persona_result in H.
  destruct (rest_raised_classes _ e H) as [[cls [msg ->]] | Hb];
    [ reflexivity | apply (builtin_error_handled e Hb) ].
Qed.

Lemma py_getitem_builtin (v : value) (k : string) (e : exn) :
  py_getitem v k = Raise e -> builtin_error e = true.
Proof.
  destruct v; cbn; try (intros H; injection H as <-; reflexivity).
  destruct (lookup k entries); [ discriminate | ].
  intros H; injection H as <-; reflexivity.
Qed.

Lemma py_getitem_0_builtin (v : value) (e : exn) :
  py_getitem_0 v = Raise e -> builtin_error e = true.
Proof.
  destruct v as [ | b | n | x | s | l | d ]; cbn;
    try (intros H; injection H as <-; reflexivity).
  - destruct s; [ | discriminate ].
    intros H; injection H as <-; reflexivity.
  - destruct l; [ | discriminate ].
    intros H; injection H as <-; reflexivity.
Qed.

Lemma py_print_builtin (texts : list string) (e : exn) :
  py_print texts = Raise e -> builtin_error e = true.
Proof. intros H. now rewrite (py_print_raises texts e H). Qed.

Lemma group_by_role_builtin (personas : list value) :
  forall by_role e,
    group_by_role personas by_role = Raise e -> builtin_error e = true.
Proof.
  induction personas as [| p rest IH]; intros by_role e; cbn.
  - discriminate.
  - destruct p as [ | b | n | x | s | l | d ]; cbn;
      try (intros H; injection H as <-; reflexivity).
    destruct (hashable _); [ apply IH | ].
    intros H; injection H as <-; reflexivity.
Qed.

Lemma print_members_builtin (ps : list value) (e : exn) :
  print_members py_str ps = Raise e -> builtin_error e = true.
Proof.
  induction ps as [| p rest IH]; cbn; [ discriminate | ].
  destruct (py_getitem p "id") as [id | e1] eqn:H1.
  - destruct (py_getitem p "name") as [name | e2] eqn:H2.
    + destruct (py_print [py_str id; py_str name]) as [[] | e3] eqn:H3;
        [ exact IH | ].
      intros H; injection H as <-. exact (py_print_builtin _ _ H3).
    + intros H; injection H as <-. exact (py_getitem_builtin _ _ _ H2).
  - intros H; injection H as <-. exact (py_getitem_builtin _ _ _ H1).
Qed.

Lemma print_groups_builtin (by_role : list (value * list value)) (e : exn) :
  print_groups py_str by_role = Raise e -> builtin_error e = true.
Proof.
  induction by_role as [| [r ps] rest IH]; cbn; [ discriminate | ].
  destruct r as [ | b | n | x | s | l | d ]; cbn;
    try (intros H; injection H as <-; reflexivity).
  destruct (py_print [s]) as [[] | e1] eqn:H1.
  - destruct (print_members py_str ps) as [[] | e2] eqn:H2; [ exact IH | ].
    intros H; injection H as <-. exact (print_members_builtin _ _ H2).
  - intros H; injection H as <-. exact (py_print_builtin _ _ H1).
Qed.

(** Running one operation inside a routine. *)
Ltac run_operation call :=
  rewrite (surjective_pairing call); cbv beta iota;
  let res := fresh "res" in
  let Hres := fresh "Hres" in
  destruct (fst call) as [res | res] eqn:Hres; cbn [fst snd]; cbv beta iota.

Ltac unfold_operations :=
  rewrite ?perform_all_cons; cbn [perform_all snd perform].

(** The handler catches a built-in error [H] says was raised, prints it and
    returns. *)
Ltac handle_builtin H :=
  let Hb := fresh "Hb" in
  pose proof H as Hb;
  first [ apply py_getitem_builtin in Hb
        | apply py_getitem_0_builtin in Hb
        | apply py_print_builtin in Hb
        | apply group_by_role_builtin in Hb
        | apply print_groups_builtin in Hb ];
  destruct (builtin_error_handled _ Hb) as [-> ->].

Lemma swallow_one_call (tool_name : string) (arguments : value) (st : state) :
  swallow (result <- call_tool py_str tool_name arguments ;; ret tt) st
  = (handled (fst (call_tool py_str tool_name arguments st)),
     snd (perform_all py_str [CallTool tool_name arguments] st)).
Proof.
  rewrite perform_all_one. cbn [perform].
  unfold swallow, try_except, bind, ret, lift.
  run_operation (call_tool py_str tool_name arguments st).
  - reflexivity.
  - rewrite (call_tool_catchable _ _ _ _ Hres). reflexivity.
Qed.

Lemma py_len_iter (v : value) :
  (exists n items, py_len v = Ok n /\ py_iter v = Ok items) \/
  (py_len v = Raise TypeError /\ py_iter v = Raise TypeError).
Proof.
  destruct v; cbn; try (right; split; reflexivity);
    left; eexists; eexists; split; reflexivity.
Qed.

Lemma example_4_as_operations (st : state) :
  let fetched :=
    match fst (get_personas st) with
    | Ok personas => listing_ok py_str personas
    | Raise _ => false
    end in
  example_4_use_rest_api py_str st
  = (match fst (get_personas st) with
     | Raise e => py_print [exn_str e]
     | Ok _ =>
         if fetched
         then handled (fst (get_persona "security-analyst"
                              (snd (get_personas st))))
         else Ok tt
     end,
     snd (perform_all py_str
            (GetPersonas ::
             (if fetched then [GetPersona "security-analyst"] else [])) st)).
Proof.
  cbv zeta.
  unfold example_4_use_rest_api, swallow, try_except, bind, lift, ret.
  run_operation (get_personas st).
  - rename res into personas. unfold listing_ok.
    destruct (py_len_iter personas) as [[n [items [-> Hi]]] | [-> Hi]];
      rewrite Hi; [ | unfold_operations; reflexivity ].
    pose proof (group_by_role_ok items []) as Hg.
    destruct (group_by_role items []) as [grouped | e] eqn:Hgroup.
    + cbn in Hg. rewrite <- Hg.
      destruct (print_groups py_str grouped) as [[] | e] eqn:Hprint.
      * apply print_groups_ok in Hprint. rewrite Hprint.
        unfold_operations.
        run_operation (get_persona "security-analyst" (snd (get_personas st))).
        -- reflexivity.
        -- rewrite (get_persona_catchable _ _ _ Hres0). reflexivity.
      * handle_builtin Hprint.
        destruct (groups_ok py_str grouped) eqn:Hok.
        -- apply print_groups_ok in Hok. congruence.
        -- unfold_operations. reflexivity.
    + handle_builtin Hgroup. rewrite Hg.
      unfold_operations. reflexivity.
  - rewrite (get_personas_catchable _ _ Hres).
    unfold_operations. reflexivity.
Qed.


(** The operations [example_6_practical_workflow] performs after the
    first. *)
Lemma example_6_as_operations (st : state) :
  let first :=
    call_tool py_str "recommend-persona" (VDict workflow_problem) st in
  exists more res,
    example_6_practical_workflow py_str st
    = (res,
       snd (perform_all py_str
              (CallTool "recommend-persona" (VDict workflow_problem) :: more)
              st)) /\
    (res = Ok tt \/ res = Raise UnicodeEncodeError) /\
    match fst first with
    | Raise _ => more = []
    | Ok result =>
        match top_persona_id py_str result with
        | None => more = []
        | Some persona_id =>
            let explain :=
              CallTool "explain-persona-fit"
                (VDict (("personaId", persona_id) :: workflow_problem)) in
            more = [explain] \/
            exists b, more = [explain; CallTool "compare-personas" b]
        end
    end.
Proof.
  cbv zeta.
  unfold example_6_practical_workflow, swallow, try_except, bind, lift, ret.
  cbv zeta. fold workflow_problem. unfold top_persona_id.
  run_operation (call_tool py_str "recommend-persona" (VDict workflow_problem) st).
  2: { exists [], (handled (@Raise value res)).
       rewrite (call_tool_catchable _ _ _ _ Hres).
       unfold_operations. split; [ reflexivity | ].
       split; [ apply handled_cases | reflexivity ]. }
  rename res into result.
  destruct (py_getitem result "data") as [data | e] eqn:Hdata.
  2: { exists [], (Ok tt). handle_builtin Hdata. unfold_operations. auto. }
  destruct (py_getitem data "recommendations") as [recs | e] eqn:Hrecs.
  2: { exists [], (Ok tt). handle_builtin Hrecs. unfold_operations. auto. }
  destruct (truthy recs); cbn [negb].
  2: { exists [], (Ok tt). unfold_operations. auto. }
  destruct (py_getitem_0 recs) as [best | e] eqn:Hbest.
  2: { exists [], (Ok tt). handle_builtin Hbest. unfold_operations. auto. }
  destruct (py_getitem best "personaId") as [pid | e] eqn:Hpid.
  2: { exists [], (Ok tt). handle_builtin Hpid. unfold_operations. auto. }
  destruct (py_getitem best "score") as [score | e] eqn:Hscore.
  2: { exists [], (Ok tt). handle_builtin Hscore. unfold_operations. auto. }
  destruct (py_print [py_str pid; py_str score]) as [[] | e] eqn:Hshow.
  2: { exists [], (Ok tt). handle_builtin Hshow.
       unfold py_print in Hshow. cbn in Hshow. rewrite andb_true_r in Hshow.
       destruct (encodable (py_str pid) && encodable (py_str score));
         [ discriminate | ].
       unfold_operations. auto. }
  apply py_print_ok in Hshow. cbn in Hshow. rewrite andb_true_r in Hshow.
  rewrite Hshow.
  assert (Hagain : py_print [py_str pid] = Ok tt).
  { apply py_print_ok. cbn. rewrite andb_true_r.
    now apply andb_prop in Hshow. }
  rewrite Hagain.
  set (st1 := snd (call_tool py_str "recommend-persona"
                     (VDict workflow_problem) st)).
  run_operation (call_tool py_str "explain-persona-fit"
                   (VDict (("personaId", pid) :: workflow_problem)) st1).
  2: { eexists [CallTool "explain-persona-fit" _], (handled (@Raise value res)).
       rewrite (call_tool_catchable _ _ _ _ Hres0).
       unfold_operations. split; [ reflexivity | ].
       split; [ apply handled_cases | left; reflexivity ]. }
  rename res into explain_result.
  destruct (py_getitem explain_result "data") as [explanation | e] eqn:Hexp.
  2: { eexists [CallTool "explain-persona-fit" _], (Ok tt).
       handle_builtin Hexp. unfold_operations. auto. }
  destruct (py_getitem explanation "reasoning") as [reasoning | e] eqn:Hreas.
  2: { eexists [CallTool "explain-persona-fit" _], (Ok tt).
       handle_builtin Hreas. unfold_operations. auto. }
  destruct (py_print [py_str reasoning]) as [[] | e] eqn:Hwhy.
  2: { eexists [CallTool "explain-persona-fit" _], (Ok tt).
       handle_builtin Hwhy. unfold_operations. auto. }
  set (st2 := snd (call_tool py_str "explain-persona-fit"
                     (VDict (("personaId", pid) :: workflow_problem)) st1)).
  run_operation (call_tool py_str "compare-personas"
                   (VDict (("personaIds",
                            strs ["optimizer"; "database-admin"; "debugger"])
                           :: workflow_problem)) st2).
  - eexists [CallTool "explain-persona-fit" _; CallTool "compare-personas" _],
      (Ok tt).
    unfold_operations. split; [ reflexivity | ]. split; [ now left | ].
    right. eauto.
  - eexists [CallTool "explain-persona-fit" _; CallTool "compare-personas" _],
      (handled (@Raise value res)).
    rewrite (call_tool_catchable _ _ _ _ Hres1).
    unfold_operations. split; [ reflexivity | ].
    split; [ apply handled_cases | ]. right. eauto.
Qed.


(** ** The run of the examples *)

Lemma bind_returns {A B} (m : M A) (k : A -> M B) (st st' : state) (a : A) :
  m st = (Ok a, st') -> bind m k st = k a st'.
Proof. intros H. unfold bind. rewrite H. reflexivity. Qed.

Lemma bind_raises {A B} (m : M A) (k : A -> M B) (st st' : state) (e : exn) :
  m st = (Raise e, st') -> bind m k st = (Raise e, st').
Proof. intros H. unfold bind. rewrite H. reflexivity. Qed.

Lemma example_1_as_operations (st : state) :
  exists task,
    example_1_get_recommendations py_str st
    = (handled (fst (call_tool py_str "recommend-persona" task st)),
       snd (perform_all py_str [CallTool "recommend-persona" task] st)).
Proof.
  unfold example_1_get_recommendations. cbv zeta.
  eexists. apply swallow_one_call.
Qed.

Lemma example_2_as_operations (st : state) :
  exists request,
    example_2_explain_persona_fit py_str st
    = (handled (fst (call_tool py_str "explain-persona-fit" request st)),
       snd (perform_all py_str [CallTool "explain-persona-fit" request] st)).
Proof.
  unfold example_2_explain_persona_fit. cbv zeta.
  eexists. apply swallow_one_call.
Qed.

Lemma example_3_as_operations (st : state) :
  exists comparison,
    example_3_compare_personas py_str st
    = (handled (fst (call_tool py_str "compare-personas" comparison st)),
       snd (perform_all py_str [CallTool "compare-personas" comparison] st)).
Proof.
  unfold example_3_compare_personas. cbv zeta.
  eexists. apply swallow_one_call.
Qed.

Lemma example_5_as_operations (st : state) :
  example_5_system_stats py_str st
  = (handled (fst (call_tool py_str "get-recommendation-stats" (VDict []) st)),
     snd (perform_all py_str
            [CallTool "get-recommendation-stats" (VDict [])] st)).
Proof. unfold example_5_system_stats. apply swallow_one_call. Qed.


Lemma a_whole_run_is_cut_short (ops : list operation) :
  a_run_of_the_examples ops -> a_run_cut_short ops.
Proof.
  intros H. split.
  - destruct H as [task [request [comparison [fetch [more [-> _]]]]]].
    discriminate.
  - exists []. now rewrite app_nil_r.
Qed.

Lemma run_examples_as_operations (st : state) :
  exists ops res,
    run_examples py_str st = (res, snd (perform_all py_str ops st)) /\
    ((res = Ok tt /\ a_run_of_the_examples ops) \/
     (res = Raise UnicodeEncodeError /\ a_run_cut_short ops)).
Proof.
  unfold run_examples.
  (* example 1 *)
  destruct (example_1_as_operations st) as [task H1].
  set (st1 := snd (perform_all py_str [CallTool "recommend-persona" task] st))
    in *.
  destruct (handled_cases (fst (call_tool py_str "recommend-persona" task st)))
    as [E1 | E1]; rewrite E1 in H1.
  2: { exists [CallTool "recommend-persona" task], (Raise UnicodeEncodeError).
       rewrite (bind_raises _ _ _ _ _ H1).
       split; [ reflexivity | ]. right. split; [ reflexivity | ].
       split; [ discriminate | ].
       exists ([CallTool "explain-persona-fit" (VDict []);
                CallTool "compare-personas" (VDict []); GetPersonas]
               ++ [CallTool "get-recommendation-stats" (VDict []);
                   CallTool "recommend-persona" (VDict workflow_problem)]).
       exists task, (VDict []), (VDict []), [], []. auto. }
  rewrite (bind_returns _ _ _ _ _ H1).
  (* example 2 *)
  destruct (example_2_as_operations st1) as [request H2].
  set (st2 := snd (perform_all py_str
                     [CallTool "explain-persona-fit" request] st1)) in *.
  destruct (handled_cases
              (fst (call_tool py_str "explain-persona-fit" request st1)))
    as [E2 | E2]; rewrite E2 in H2.
  2: { exists [CallTool "recommend-persona" task;
               CallTool "explain-persona-fit" request],
         (Raise UnicodeEncodeError).
       rewrite (bind_raises _ _ _ _ _ H2).
       split; [ subst st2 st1; rewrite <- perform_all_app; reflexivity | ].
       right. split; [ reflexivity | ]. split; [ discriminate | ].
       exists ([CallTool "compare-personas" (VDict []); GetPersonas]
               ++ [CallTool "get-recommendation-stats" (VDict []);
                   CallTool "recommend-persona" (VDict workflow_problem)]).
       exists task, request, (VDict []), [], []. auto. }
  rewrite (bind_returns _ _ _ _ _ H2).
  (* example 3 *)
  destruct (example_3_as_operations st2) as [comparison H3].
  set (st3 := snd (perform_all py_str
                     [CallTool "compare-personas" comparison] st2)) in *.
  destruct (handled_cases
              (fst (call_tool py_str "compare-personas" comparison st2)))
    as [E3 | E3]; rewrite E3 in H3.
  2: { exists [CallTool "recommend-persona" task;
               CallTool "explain-persona-fit" request;
               CallTool "compare-personas" comparison],
         (Raise UnicodeEncodeError).
       rewrite (bind_raises _ _ _ _ _ H3).
       split.
       - subst st3 st2 st1.
         change [CallTool "recommend-persona" task;
                 CallTool "explain-persona-fit" request;
                 CallTool "compare-personas" comparison]
           with ([CallTool "recommend-persona" task]
                 ++ [CallTool "explain-persona-fit" request]
                 ++ [CallTool "compare-personas" comparison]).
         rewrite !perform_all_app. reflexivity.
       - right. split; [ reflexivity | ]. split; [ discriminate | ].
         exists ([GetPersonas]
                 ++ [CallTool "get-recommendation-stats" (VDict []);
                     CallTool "recommend-persona" (VDict workflow_problem)]).
         exists task, request, comparison, [], []. auto. }
  rewrite (bind_returns _ _ _ _ _ H3).
  (* example 4 *)
  pose proof (example_4_as_operations st3) as H4. cbv zeta in H4.
  set (fetch := if match fst (get_personas st3) with
                   | Ok personas => listing_ok py_str personas
                   | Raise _ => false
                   end
                then [GetPersona "security-analyst"] else []) in *.
  assert (Hfetch : fetch = [] \/ fetch = [GetPersona "security-analyst"]).
  { subst fetch.
    destruct (match fst (get_personas st3) with
              | Ok personas => listing_ok py_str personas
              | Raise _ => false
              end); auto. }
  set (st4 := snd (perform_all py_str (GetPersonas :: fetch) st3)) in *.
  assert (Hprefix4 :
    st4 = snd (perform_all py_str
                 ([CallTool "recommend-persona" task;
                   CallTool "explain-persona-fit" request;
                   CallTool "compare-personas" comparison; GetPersonas]
                  ++ fetch) st)).
  { subst st4 st3 st2 st1.
    change ([CallTool "recommend-persona" task;
             CallTool "explain-persona-fit" request;
             CallTool "compare-personas" comparison; GetPersonas] ++ fetch)
      with ([CallTool "recommend-persona" task]
            ++ [CallTool "explain-persona-fit" request]
            ++ [CallTool "compare-personas" comparison]
            ++ (GetPersonas :: fetch)).
    rewrite !perform_all_app. reflexivity. }
  match type of H4 with
  | _ = (?r, _) =>
      assert (E4 : r = Ok tt \/ r = Raise UnicodeEncodeError)
  end.
  { destruct (fst (get_personas st3)) as [personas | e].
    - destruct (listing_ok py_str personas); [ apply handled_cases | now left ].
    - apply (handled_cases (@Raise unit e)). }
  destruct E4 as [E4 | E4]; rewrite E4 in H4.
  2: { exists ([CallTool "recommend-persona" task;
                CallTool "explain-persona-fit" request;
                CallTool "compare-personas" comparison; GetPersonas]
               ++ fetch), (Raise UnicodeEncodeError).
       rewrite (bind_raises _ _ _ _ _ H4), Hprefix4.
       split; [ reflexivity | ]. right. split; [ reflexivity | ].
       split; [ discriminate | ].
       exists [CallTool "get-recommendation-stats" (VDict []);
               CallTool "recommend-persona" (VDict workflow_problem)].
       exists task, request, comparison, fetch, [].
       rewrite <- !app_assoc. auto. }
  rewrite (bind_returns _ _ _ _ _ H4).
  (* example 5 *)
  pose proof (example_5_as_operations st4) as H5.
  set (st5 := snd (perform_all py_str
                     [CallTool "get-recommendation-stats" (VDict [])] st4))
    in *.
  assert (Hprefix5 :
    st5 = snd (perform_all py_str
                 (([CallTool "recommend-persona" task;
                    CallTool "explain-persona-fit" request;
                    CallTool "compare-personas" comparison; GetPersonas]
                   ++ fetch)
                  ++ [CallTool "get-recommendation-stats" (VDict [])]) st)).
  { subst st5. rewrite Hprefix4, <- perform_all_app. reflexivity. }
  destruct (handled_cases
              (fst (call_tool py_str "get-recommendation-stats"
                      (VDict []) st4)))
    as [E5 | E5]; rewrite E5 in H5.
  2: { eexists _, (Raise UnicodeEncodeError).
       rewrite (bind_raises _ _ _ _ _ H5), Hprefix5.
       split; [ reflexivity | ]. right. split; [ reflexivity | ].
       split; [ destruct fetch; discriminate | ].
       exists [CallTool "recommend-persona" (VDict workflow_problem)].
       exists task, request, comparison, fetch, [].
       rewrite <- !app_assoc. auto. }
  rewrite (bind_returns _ _ _ _ _ H5).
  (* example 6 *)
  destruct (example_6_as_operations st5) as [more [res [H6 [Hres Hmore]]]].
  assert (Hshape :
    a_run_of_the_examples
      ((([CallTool "recommend-persona" task;
          CallTool "explain-persona-fit" request;
          CallTool "compare-personas" comparison; GetPersonas]
         ++ fetch)
        ++ [CallTool "get-recommendation-stats" (VDict [])])
       ++ CallTool "recommend-persona" (VDict workflow_problem) :: more)).
  { exists task, request, comparison, fetch, more.
    split; [ now rewrite <- !app_assoc | ].
    split; [ exact Hfetch | ].
    cbv zeta in Hmore.
    destruct (fst (call_tool py_str "recommend-persona"
                     (VDict workflow_problem) st5)) as [result | e];
      [ | auto ].
    destruct (top_persona_id py_str result) as [pid |]; [ | auto ].
    destruct Hmore as [-> | [b ->]]; eauto. }
  eexists _, res. rewrite H6, Hprefix5, <- perform_all_app.
  split; [ reflexivity | ].
  destruct Hres as [-> | ->]; [ left | right ]; split; auto.
  now apply a_whole_run_is_cut_short.
Qed.

(** ** [main] *)

Lemma test_connection_passes (st : state) :
  health_check_fails (reply_to st health_request) = false ->
  fst (test_connection st) = Ok tt.
Proof.
  unfold reply_to, health_request, test_connection.
  unfold bind, try_except, session_get, exchange, get_self, lift, raise, ret.
  cbn.
  destruct (server (net st) _) as [r | cls msg]; cbn; intros H;
    [ | discriminate ].
  rewrite (raise_for_status_accepts r H). reflexivity.
Qed.

Lemma main_as_operations (s : Session) (w : world) :
  health_check_fails (server w (sent w ++ [health_request])) = false ->
  exists ops,
    a_run_cut_short ops /\
    main py_str s w
    = (Ok tt,
       snd (perform_all py_str ops
              (mkState (__init__ default_mcp_url default_api_url s)
                       (logged w health_request)))).
Proof.
  intros Hpass. unfold main, main_body.
  set (st0 := mkState (__init__ default_mcp_url default_api_url s) w).
  pose proof (test_connection_passes st0 Hpass) as Hok.
  pose proof (test_connection_state st0) as Hstate.
  destruct (run_examples_as_operations (snd (test_connection st0)))
    as [ops [res [Hrun Hres]]].
  exists ops. split.
  - destruct Hres as [[_ H] | [_ H]];
      [ now apply a_whole_run_is_cut_short | exact H ].
  - rewrite (bind_returns _ _ st0 (snd (test_connection st0)) tt).
    + unfold try_except. rewrite Hrun, Hstate.
      destruct Hres as [[-> _] | [-> _]]; reflexivity.
    + rewrite (surjective_pairing (test_connection st0)), Hok. reflexivity.
Qed.

(** X17.  [main] leaves with [SystemExit(1)] exactly when the liveness
    check fails; otherwise it returns, whatever the server answers to the
    examples: what gets out of an example is caught and printed by [main]
    itself. *)
Theorem main_exit_status (s : Session) (w : world) :
  fst (main py_str s w)
  = if health_check_fails (server w (sent w ++ [health_request]))
    then Raise (SystemExit 1) else Ok tt.
Proof.
  destruct (health_check_fails (server w (sent w ++ [health_request])))
    eqn:Hcheck.
  - unfold main, main_body.
    set (st0 := mkState (__init__ default_mcp_url default_api_url s) w).
    pose proof (test_connection_fails st0 Hcheck) as Hraise.
    unfold bind at 1.
    rewrite (surjective_pairing (test_connection st0)), Hraise.
    reflexivity.
  - destruct (main_as_operations s w Hcheck) as [ops [_ ->]]. reflexivity.
Qed.






End Further.

(** * The further properties on concrete runs *)

Lemma call_tool_lets_no_requests_exception_out_witness :
  let st := fresh (always internal_server_error) in
  fst (call_tool py_str_plain "compare-personas" (VDict []) st)
  = Raise (Exception "Request failed: 500 Server Error: Internal Server Error for url: http://localhost:3000/") /\
  is_RequestException
    (Exception "Request failed: 500 Server Error: Internal Server Error for url: http://localhost:3000/")
  = false.
Proof.
  cbn zeta. split; [ reflexivity | ].
  exact (call_tool_lets_no_requests_exception_out py_str_plain
           (fresh (always internal_server_error))
           "compare-personas" (VDict []) _ eq_refl).
Defined.

Lemma call_tool_error_not_a_mapping_witness :
  is_error_status 200 = false /\
  lookup "error" [ ("error", VStr "boom") ] = Some (VStr "boom") /\
  fst (call_tool py_str_plain "compare-personas" (VDict [])
         (fresh (always (ok_json boom_as_text))))
  = Raise AttributeError.
Proof.
  split; [ reflexivity | ]. split; [ reflexivity | ].
  refine (call_tool_error_not_a_mapping py_str_plain
            (fresh (always (ok_json boom_as_text)))
            "compare-personas" (VDict [])
            (mkResponse 200 "OK" "http://localhost:3000/" (inr boom_as_text))
            [ ("error", VStr "boom") ] (VStr "boom")
            eq_refl eq_refl eq_refl eq_refl _).
  intros e H. discriminate H.
Defined.

Lemma call_tool_on_a_list_witness :
  is_error_status 200 = false /\
  fst (call_tool py_str_plain "compare-personas" (VDict [])
         (fresh (always (ok_json (VList [VInt 1; VStr "error"])))))
  = Raise TypeError /\
  fst (call_tool py_str_plain "compare-personas" (VDict [])
         (fresh (always (ok_json (VList [VStr "errors"])))))
  = Raise AttributeError.
Proof.
  split; [ reflexivity | ]. split.
  - exact (call_tool_on_a_list py_str_plain
             (fresh (always (ok_json (VList [VInt 1; VStr "error"]))))
             "compare-personas" (VDict [])
             (mkResponse 200 "OK" "http://localhost:3000/"
                (inr (VList [VInt 1; VStr "error"])))
             [VInt 1; VStr "error"] eq_refl eq_refl eq_refl).
  - exact (call_tool_on_a_list py_str_plain
             (fresh (always (ok_json (VList [VStr "errors"]))))
             "compare-personas" (VDict [])
             (mkResponse 200 "OK" "http://localhost:3000/"
                (inr (VList [VStr "errors"])))
             [VStr "errors"] eq_refl eq_refl eq_refl).
Defined.

Lemma rest_operations_wrap_nothing_witness :
  let st := fresh (always connection_refused) in
  is_tool_call (GetPersona "architect") = false /\
  reply_to st (request_of (self st) (GetPersona "architect"))
  = Failed ConnectionError "Connection refused" /\
  fst (perform py_str_plain (GetPersona "architect") st)
  = Raise (RequestException ConnectionError "Connection refused").
Proof.
  cbn zeta. split; [ reflexivity | ]. split; [ reflexivity | ].
  destruct (rest_operations_wrap_nothing py_str_plain
              (fresh (always connection_refused)) (GetPersona "architect")
              eq_refl)
    as [Hfailed _].
  exact (Hfailed ConnectionError "Connection refused" eq_refl).
Defined.

Lemma decoder_limits_come_out_witness :
  let st := fresh (always too_many_digits) in
  is_error_status 200 = false /\
  fst (call_tool py_str_plain "compare-personas" (VDict []) st)
  = Raise ValueError /\
  fst (get_persona "architect" st) = Raise ValueError.
Proof.
  cbn zeta. split; [ reflexivity | ]. split.
  - destruct (decoder_limits_come_out py_str_plain
                (fresh (always too_many_digits))
                (CallTool "compare-personas" (VDict []))
                (mkResponse 200 "OK" "http://localhost:3000/"
                   (inl TooManyDigits))
                eq_refl eq_refl)
      as [Hdigits _].
    exact (Hdigits eq_refl).
  - destruct (decoder_limits_come_out py_str_plain
                (fresh (always too_many_digits))
                (GetPersona "architect")
                (mkResponse 200 "OK" "http://localhost:3000/"
                   (inl TooManyDigits))
                eq_refl eq_refl)
      as [Hdigits _].
    exact (Hdigits eq_refl).
Defined.

Lemma group_by_role_keeps_everyone_witness :
  let a := VDict [ ("id", VStr "a"); ("role", VStr "architect") ] in
  let b := VDict [ ("id", VStr "b") ] in
  let c := VDict [ ("id", VStr "c"); ("role", VStr "architect") ] in
  group_by_role [a; b; c] []
  = Ok [ (VStr "architect", [a; c]); (VStr "unknown", [b]) ] /\
  Permutation [a; c; b] [a; b; c].
Proof.
  cbn zeta. split; [ reflexivity | ].
  exact (group_by_role_keeps_everyone
           [ VDict [ ("id", VStr "a"); ("role", VStr "architect") ];
             VDict [ ("id", VStr "b") ];
             VDict [ ("id", VStr "c"); ("role", VStr "architect") ] ]
           [] _ eq_refl).
Defined.

Lemma group_by_role_keys_distinct_witness :
  let a := VDict [ ("role", VInt 1) ] in
  let b := VDict [ ("role", VBool true) ] in
  let c := VDict [ ("role", VStr "1") ] in
  group_by_role [a; b; c] [] = Ok [ (VInt 1, [a; b]); (VStr "1", [c]) ] /\
  distinct_keys [ (VInt 1, [a; b]); (VStr "1", [c]) ].
Proof.
  cbn zeta. split; [ reflexivity | ].
  exact (group_by_role_keys_distinct
           [ VDict [ ("role", VInt 1) ]; VDict [ ("role", VBool true) ];
             VDict [ ("role", VStr "1") ] ]
           [] _ I eq_refl).
Defined.

Lemma group_by_role_groups_witness :
  let a := VDict [ ("id", VStr "a"); ("role", VStr "architect") ] in
  let b := VDict [ ("id", VStr "b") ] in
  let c := VDict [ ("id", VStr "c"); ("role", VStr "architect") ] in
  group_by_role [a; b; c] []
  = Ok [ (VStr "architect", [a; c]); (VStr "unknown", [b]) ] /\
  group_of "unknown" [ (VStr "architect", [a; c]); (VStr "unknown", [b]) ]
  = [] ++ filter (has_role "unknown") [a; b; c].
Proof.
  cbn zeta. split; [ reflexivity | ].
  exact (group_by_role_groups
           [ VDict [ ("id", VStr "a"); ("role", VStr "architect") ];
             VDict [ ("id", VStr "b") ];
             VDict [ ("id", VStr "c"); ("role", VStr "architect") ] ]
           "unknown" [] _ eq_refl).
Defined.


(** A run the handler of the first example cuts short: the server reports
    an error whose message is a lone surrogate, the handler cannot print it,
    and [main], which catches what gets out, has sent the health check and
    one tool call. *)
Example a_run_cut_short_by_an_unprintable_error :
  let w := mkWorld healthy_then_unprintable [] in
  let st := mkState (__init__ default_mcp_url default_api_url (mkSession 0))
                    (logged w health_request) in
  fst (example_1_get_recommendations py_str_plain st)
  = Raise UnicodeEncodeError /\
  fst (main py_str_plain (mkSession 0) w) = Ok tt /\
  map summary (sent (net (snd (main py_str_plain (mkSession 0) w))))
  = [ (GET, health_url, None, None);
      (POST, default_mcp_url, Some (VStr "recommend-persona"),
       Some (VInt 1)) ].
Proof. cbn zeta. vm_compute. repeat split. Qed.

(** A listing all of whose items have what the loops read, one name being a
    lone surrogate: the second loop cannot print it and the persona
    [security-analyst] is not asked for. *)
Example a_listing_with_an_unprintable_name :
  let listing :=
    VList [ VDict [ ("id", VStr "a"); ("name", VStr lone_surrogate);
                    ("role", VStr "developer") ] ] in
  let st := fresh (always (ok_json listing)) in
  listing_ok py_str_plain listing = false /\
  fst (example_4_use_rest_api py_str_plain st) = Ok tt /\
  sent_since st (snd (example_4_use_rest_api py_str_plain st))
  = [ personas_request (self st) ].
Proof. cbn zeta. vm_compute. repeat split. Qed.
